(** * Recurring-event edit logic of the EventListCardModals component

    A shallow embedding of the decision logic of
    [components/EventListCard/Modal/EventListCardModals.tsx]: the React state
    of the component as a record, its [useEffect] bodies and handlers as
    state-passing functions, the update-mutation variables as a record, and the
    helpers imported from [utils/recurrenceUtils] as section parameters inside
    the component and as definitions following the specification beside it. *)

From Stdlib Require Import ZArith String Ascii.
From stdpp Require Import base decidable option list strings gmap pretty.

Local Open Scope string_scope.
Local Open Scope Z_scope.

(** ** JavaScript values the component manipulates *)

Module Js.

(** A calendar date (year, month 1..12, day of month). *)
Record CalendarDate := mkCalendarDate { year : Z; month : Z; day : Z }.

(** A [Date] object seen through its local-time getters: the calendar day
    and the milliseconds elapsed since local midnight.  Only valid dates are
    modelled: an [Invalid Date], which [new Date] returns on a string it
    cannot parse and whose getters return [NaN], has no counterpart here, so
    what is proved holds of events whose date strings parse. *)
Record Date := mkDate { calendar : CalendarDate; msOfDay : Z }.

#[global] Instance CalendarDate_eq_dec : EqDecision CalendarDate.
Proof. solve_decision. Defined.

#[global] Instance Date_eq_dec : EqDecision Date.
Proof. solve_decision. Defined.

(** [String.prototype.padStart] with a one-character filler. *)
Fixpoint fill (n : nat) (c : ascii) (s : string) : string :=
  match n with
  | O => s
  | S k => String c (fill k c s)
  end.

Definition padStart (width : nat) (c : ascii) (s : string) : string :=
  fill (width - String.length s) c s.

(** The [YYYY-MM-DD] rendering of a calendar day: each component is
    printed in decimal and left-padded with zeros. *)
Definition formatCalendar (c : CalendarDate) : string :=
  padStart 4 "0" (pretty (year c)) +:+ "-" +:+
  padStart 2 "0" (pretty (month c)) +:+ "-" +:+
  padStart 2 "0" (pretty (day c)).

(** [dayjs(d).format('YYYY-MM-DD')]. *)
Definition format_YYYY_MM_DD (d : Date) : string :=
  formatCalendar (calendar d).

(** Days since 1970-01-01 of a proleptic Gregorian date. *)
Definition daysFromCivil (c : CalendarDate) : Z :=
  let y := if month c <=? 2 then year c - 1 else year c in
  let era := y / 400 in
  let yoe := y - era * 400 in
  let mp := if month c <=? 2 then month c + 9 else month c - 3 in
  let doy := (153 * mp + 2) / 5 + day c - 1 in
  let doe := yoe * 365 + yoe / 4 - yoe / 100 + doy in
  era * 146097 + doe - 719468.

(** [Date.prototype.getDay]: 0 is Sunday, 6 is Saturday. *)
Definition getDay (d : Date) : Z := (daysFromCivil (calendar d) + 4) mod 7.

(** Truthiness of a [number | undefined] value: [undefined] and [0] are
    falsy. *)
Definition truthyNumber (n : option Z) : bool :=
  match n with
  | Some k => negb (k =? 0)
  | None => false
  end.

(** Truthiness of a [string | null] value: [null] and the empty string are
    falsy. *)
Definition truthyString (s : option string) : bool :=
  match s with
  | Some t => negb (String.eqb t "")
  | None => false
  end.

(** Truthiness of a [boolean | undefined] value. *)
Definition truthyBool (b : option bool) : bool :=
  match b with
  | Some true => true
  | _ => false
  end.

End Js.

(** ** Types and constants exported by [utils/recurrenceUtils] *)

(** Modelled from the spec: the [Frequency] enumeration, whose declaration is
    missing; section 3 lists its four values. *)
Inductive Frequency := DAILY | WEEKLY | MONTHLY | YEARLY.

(** Modelled from the spec: the weekday tags, whose declaration is missing. *)
Inductive WeekDays :=
  SUNDAY | MONDAY | TUESDAY | WEDNESDAY | THURSDAY | FRIDAY | SATURDAY.

(** Modelled from the spec: the three edit scopes, whose declaration is
    missing, under the names the component imports. *)
Inductive RecurringEventMutationType :=
  thisInstance | thisAndFollowingInstances | allInstances.

#[global] Instance Frequency_eq_dec : EqDecision Frequency.
Proof. solve_decision. Defined.
#[global] Instance WeekDays_eq_dec : EqDecision WeekDays.
Proof. solve_decision. Defined.
#[global] Instance RecurringEventMutationType_eq_dec :
  EqDecision RecurringEventMutationType.
Proof. solve_decision. Defined.

(** The [Days] table.  Its declaration is missing and the specification does
    not list it: the seven tags are taken in the order of [Date.getDay()], by
    which the component indexes the table.  This order is an assumption.  It
    decides which weekday the initial rule of the form names and in which
    order the formatter model lists weekdays; no property of the component
    proved below depends on it. *)
Definition Days : list WeekDays :=
  [SUNDAY; MONDAY; TUESDAY; WEDNESDAY; THURSDAY; FRIDAY; SATURDAY].

Definition WeekDays_index (d : WeekDays) : nat :=
  match d with
  | SUNDAY => 0 | MONDAY => 1 | TUESDAY => 2 | WEDNESDAY => 3
  | THURSDAY => 4 | FRIDAY => 5 | SATURDAY => 6
  end%nat.

Definition WeekDays_of_index (n : nat) : WeekDays :=
  default SUNDAY (Days !! n).

#[global] Instance WeekDays_countable : Countable WeekDays :=
  inj_countable' WeekDays_index WeekDays_of_index
    (fun d => match d with
              | SUNDAY | MONDAY | TUESDAY | WEDNESDAY
              | THURSDAY | FRIDAY | SATURDAY => eq_refl
              end).

(** The recurrence rule delivered with the event record
    ([InterfaceRecurrenceRule]), with the fields the component reads from it:
    dates are strings, absent values are [null]. *)
Module Rule.
Record t := mk {
  recurrenceStartDate : string;
  recurrenceEndDate : option string;
  frequency : Frequency;
  weekDays : list WeekDays;
  interval : Z;
  count : option Z;
  weekDayOccurenceInMonth : option Z;
}.
End Rule.

(** The recurrence rule held in the form ([InterfaceRecurrenceRuleState]),
    with the fields the component gives it: dates are [Date] objects,
    [recurrenceEndDate] is [Date | null], [count] and
    [weekDayOccurenceInMonth] are [number | undefined]. *)
Module RuleState.
Record t := mk {
  recurrenceStartDate : Js.Date;
  recurrenceEndDate : option Js.Date;
  frequency : Frequency;
  weekDays : list WeekDays;
  interval : Z;
  count : option Z;
  weekDayOccurenceInMonth : option Z;
}.
End RuleState.

(** ** The recurrence core as the specification describes it

    The component imports its helpers from [utils/recurrenceUtils], whose
    source lies outside the files verified here; the three helpers are
    written from the specification (sections 3, 4.1 and 4.2). *)

Module RecurrenceSpec.

(** Modelled from the spec: the [RecurrenceRule] data model of section 3
    (the declaration of the rule type in [utils/recurrenceUtils] is
    missing). *)
Record RecurrenceRule := mkRule {
  recurrenceStartDate : Js.CalendarDate;
  recurrenceEndDate : option Js.CalendarDate;
  frequency : Frequency;
  weekDays : gset WeekDays;
  interval : Z;
  count : option Z;
  weekDayOccurrenceInMonth : option Z;
}.

(** Chronological order on calendar dates. *)
Definition CalendarDate_leb (a b : Js.CalendarDate) : bool :=
  (Js.year a <? Js.year b)
  || ((Js.year a =? Js.year b)
      && ((Js.month a <? Js.month b)
          || ((Js.month a =? Js.month b) && (Js.day a <=? Js.day b)))).

(** Modelled from the spec: the invariant of section 3, [interval >= 1],
    [weekDays] non-empty when the frequency is WEEKLY, and
    [recurrenceStartDate <= recurrenceEndDate] when the latter is present. *)
Definition validRuleb (r : RecurrenceRule) : bool :=
  (1 <=? interval r)
  && (if decide (frequency r = WEEKLY)
      then negb (bool_decide (weekDays r = ∅)) else true)
  && match recurrenceEndDate r with
     | Some e => CalendarDate_leb (recurrenceStartDate r) e
     | None => true
     end.

Definition validRule (r : RecurrenceRule) : Prop := validRuleb r = true.

(** *** Change detector (section 4.2) *)

(** Modelled from the spec: [haveInstanceDatesChanged] of
    [utils/recurrenceUtils] is missing; it is "true iff either date differs
    (date-only comparison, ignoring time-of-day)". *)
Definition haveInstanceDatesChanged
    (originalStart originalEnd editedStart editedEnd : Js.Date) : bool :=
  negb (bool_decide (Js.calendar originalStart = Js.calendar editedStart))
  || negb (bool_decide (Js.calendar originalEnd = Js.calendar editedEnd)).

(** The fields the specification calls structurally comparable;
    [recurrenceStartDate] is not among them. *)
Definition sameComparableFields (a b : RecurrenceRule) : bool :=
  bool_decide (frequency a = frequency b)
  && bool_decide (interval a = interval b)
  && bool_decide (weekDays a = weekDays b)
  && bool_decide (recurrenceEndDate a = recurrenceEndDate b)
  && bool_decide (count a = count b)
  && bool_decide (weekDayOccurrenceInMonth a = weekDayOccurrenceInMonth b).

(** Modelled from the spec: [hasRecurrenceRuleChanged] of
    [utils/recurrenceUtils] is missing; it is true when exactly one of the
    two rules is absent, or when the comparable fields differ in at least
    one field. *)
Definition hasRecurrenceRuleChanged
    (originalRule editedRule : option RecurrenceRule) : bool :=
  match originalRule, editedRule with
  | None, None => false
  | None, Some _ => true
  | Some _, None => true
  | Some a, Some b => negb (sameComparableFields a b)
  end.

(** *** Recurrence text formatter (section 4.1) *)

Definition periodName (f : Frequency) : string :=
  match f with
  | DAILY => "days" | WEEKLY => "weeks" | MONTHLY => "months"
  | YEARLY => "years"
  end.

Definition shortDayName (d : WeekDays) : string :=
  match d with
  | SUNDAY => "Sun" | MONDAY => "Mon" | TUESDAY => "Tue"
  | WEDNESDAY => "Wed" | THURSDAY => "Thu" | FRIDAY => "Fri"
  | SATURDAY => "Sat"
  end.

Definition longDayName (d : WeekDays) : string :=
  match d with
  | SUNDAY => "Sunday" | MONDAY => "Monday" | TUESDAY => "Tuesday"
  | WEDNESDAY => "Wednesday" | THURSDAY => "Thursday" | FRIDAY => "Friday"
  | SATURDAY => "Saturday"
  end.

(** [Array.prototype.join]. *)
Fixpoint join (sep : string) (l : list string) : string :=
  match l with
  | [] => ""
  | [x] => x
  | x :: rest => x +:+ sep +:+ join sep rest
  end.

(** English ordinal of an integer: 1st, 2nd, 3rd, 4th, 11th, 22nd. *)
Definition ordinal (n : Z) : string :=
  let suffix :=
    if (11 <=? Z.abs n mod 100) && (Z.abs n mod 100 <=? 13) then "th"
    else match Z.abs n mod 10 with
         | 1 => "st" | 2 => "nd" | 3 => "rd" | _ => "th"
         end in
  pretty n +:+ suffix.

(** Modelled from the spec: the weekday enumeration of the formatter; the
    rule holds a set, which is listed in the order of the [Days] table. *)
Definition weekDayList (r : RecurrenceRule) : list WeekDays :=
  filter (fun d => d ∈ weekDays r) Days.

(** Modelled from the spec: the interval and frequency phrase
    ("every 2 weeks"). *)
Definition intervalClause (r : RecurrenceRule) : string :=
  "every " +:+ pretty (interval r) +:+ " " +:+ periodName (frequency r).

(** Modelled from the spec: the weekday enumeration, appended when the
    frequency is WEEKLY ("on Mon, Wed"). *)
Definition weekDaysClause (r : RecurrenceRule) : string :=
  if decide (frequency r = WEEKLY)
  then " on " +:+ join ", " (shortDayName <$> weekDayList r)
  else "".

(** Modelled from the spec: the month-occurrence phrase, appended when
    [weekDayOccurrenceInMonth] is set ("on the 2nd Tuesday"). *)
Definition occurrenceClause (r : RecurrenceRule) : string :=
  match weekDayOccurrenceInMonth r with
  | Some n =>
      " on the " +:+ ordinal n +:+ " " +:+
      join ", " (longDayName <$> weekDayList r)
  | None => ""
  end.

(** Modelled from the spec: the termination clause, "until" the end date if
    present, else "for" the count, else nothing. *)
Definition terminationClause (r : RecurrenceRule) : string :=
  match recurrenceEndDate r, count r with
  | Some e, _ => " until " +:+ Js.formatCalendar e
  | None, Some c => " for " +:+ pretty c +:+ " times"
  | None, None => ""
  end.

(** Modelled from the spec: the formatter ([getRecurrenceRuleText] of
    [utils/recurrenceUtils], [formatRule] in the specification) is missing;
    section 4.1 composes the interval and frequency phrase, the weekday
    enumeration for WEEKLY, the month-occurrence phrase when
    [weekDayOccurrenceInMonth] is set, and the termination clause, the end
    date taking precedence over the count. *)
Definition formatRule (r : RecurrenceRule) : string :=
  intervalClause r +:+ weekDaysClause r +:+ occurrenceClause r
  +:+ terminationClause r.

End RecurrenceSpec.

(** ** The component *)

Module EventListCardModals.

(** The fields of the event record ([InterfaceEvent]) the component reads.
    [attendees] is optional and lists attendee ids; [refetchEvents] is an
    optional callback, of which only the presence matters. *)
Record InterfaceEventListCard := mkProps {
  _id : string;
  title : string;
  description : string;
  location : string;
  startDate : string;
  endDate : string;
  startTime : option string;
  endTime : option string;
  allDay : bool;
  recurring : bool;
  isPublic : bool;
  isRegisterable : bool;
  recurrenceRule : option Rule.t;
  attendees : option (list string);
  refetchEvents : bool;
}.

Module Form.
Record t := mk {
  title : string;
  eventdescrip : string;
  location : string;
  startTime : string;
  endTime : string;
}.
End Form.
Abbreviation FormState := Form.t.

(** The values held by the component's [useState] hooks. *)
Record State := mkState {
  alldaychecked : bool;
  recurringchecked : bool;
  publicchecked : bool;
  registrablechecked : bool;
  eventDeleteModalIsOpen : bool;
  recurringEventUpdateModalIsOpen : bool;
  eventStartDate : Js.Date;
  eventEndDate : Js.Date;
  recurrenceRuleState : RuleState.t;
  formState : FormState;
  recurringEventDeleteType : RecurringEventMutationType;
  recurringEventUpdateType : RecurringEventMutationType;
  recurringEventUpdateOptions : list RecurringEventMutationType;
  shouldShowRecurringEventUpdateOptions : bool;
  recurrenceRuleChanged : bool;
  instanceDatesChanged : bool;
  isRegistered : option bool;
}.

(** One state setter per hook. *)
Definition setAlldaychecked (v : bool) (st : State) : State :=
  mkState v (recurringchecked st) (publicchecked st) (registrablechecked
    st) (eventDeleteModalIsOpen st) (recurringEventUpdateModalIsOpen st)
    (eventStartDate st) (eventEndDate st) (recurrenceRuleState st)
    (formState st) (recurringEventDeleteType st)
    (recurringEventUpdateType st) (recurringEventUpdateOptions st)
    (shouldShowRecurringEventUpdateOptions st) (recurrenceRuleChanged
    st) (instanceDatesChanged st) (isRegistered st).

Definition setRecurringchecked (v : bool) (st : State) : State :=
  mkState (alldaychecked st) v (publicchecked st) (registrablechecked
    st) (eventDeleteModalIsOpen st) (recurringEventUpdateModalIsOpen st)
    (eventStartDate st) (eventEndDate st) (recurrenceRuleState st)
    (formState st) (recurringEventDeleteType st)
    (recurringEventUpdateType st) (recurringEventUpdateOptions st)
    (shouldShowRecurringEventUpdateOptions st) (recurrenceRuleChanged
    st) (instanceDatesChanged st) (isRegistered st).

Definition setPublicchecked (v : bool) (st : State) : State :=
  mkState (alldaychecked st) (recurringchecked st) v (registrablechecked
    st) (eventDeleteModalIsOpen st) (recurringEventUpdateModalIsOpen st)
    (eventStartDate st) (eventEndDate st) (recurrenceRuleState st)
    (formState st) (recurringEventDeleteType st)
    (recurringEventUpdateType st) (recurringEventUpdateOptions st)
    (shouldShowRecurringEventUpdateOptions st) (recurrenceRuleChanged
    st) (instanceDatesChanged st) (isRegistered st).

Definition setRegistrablechecked (v : bool) (st : State) : State :=
  mkState (alldaychecked st) (recurringchecked st) (publicchecked st) v
    (eventDeleteModalIsOpen st) (recurringEventUpdateModalIsOpen st)
    (eventStartDate st) (eventEndDate st) (recurrenceRuleState st)
    (formState st) (recurringEventDeleteType st)
    (recurringEventUpdateType st) (recurringEventUpdateOptions st)
    (shouldShowRecurringEventUpdateOptions st) (recurrenceRuleChanged
    st) (instanceDatesChanged st) (isRegistered st).

Definition setEventDeleteModalIsOpen (v : bool) (st : State) : State :=
  mkState (alldaychecked st) (recurringchecked st) (publicchecked st)
    (registrablechecked st) v (recurringEventUpdateModalIsOpen st)
    (eventStartDate st) (eventEndDate st) (recurrenceRuleState st)
    (formState st) (recurringEventDeleteType st)
    (recurringEventUpdateType st) (recurringEventUpdateOptions st)
    (shouldShowRecurringEventUpdateOptions st) (recurrenceRuleChanged
    st) (instanceDatesChanged st) (isRegistered st).

Definition setRecurringEventUpdateModalIsOpen (v : bool) (st : State) : State :=
  mkState (alldaychecked st) (recurringchecked st) (publicchecked st)
    (registrablechecked st) (eventDeleteModalIsOpen st) v
    (eventStartDate st) (eventEndDate st) (recurrenceRuleState st)
    (formState st) (recurringEventDeleteType st)
    (recurringEventUpdateType st) (recurringEventUpdateOptions st)
    (shouldShowRecurringEventUpdateOptions st) (recurrenceRuleChanged
    st) (instanceDatesChanged st) (isRegistered st).

Definition setEventStartDate (v : Js.Date) (st : State) : State :=
  mkState (alldaychecked st) (recurringchecked st) (publicchecked st)
    (registrablechecked st) (eventDeleteModalIsOpen st)
    (recurringEventUpdateModalIsOpen st) v (eventEndDate st)
    (recurrenceRuleState st) (formState st) (recurringEventDeleteType
    st) (recurringEventUpdateType st) (recurringEventUpdateOptions st)
    (shouldShowRecurringEventUpdateOptions st) (recurrenceRuleChanged
    st) (instanceDatesChanged st) (isRegistered st).

Definition setEventEndDate (v : Js.Date) (st : State) : State :=
  mkState (alldaychecked st) (recurringchecked st) (publicchecked st)
    (registrablechecked st) (eventDeleteModalIsOpen st)
    (recurringEventUpdateModalIsOpen st) (eventStartDate st) v
    (recurrenceRuleState st) (formState st) (recurringEventDeleteType
    st) (recurringEventUpdateType st) (recurringEventUpdateOptions st)
    (shouldShowRecurringEventUpdateOptions st) (recurrenceRuleChanged
    st) (instanceDatesChanged st) (isRegistered st).

Definition setRecurrenceRuleState (v : RuleState.t) (st : State) : State :=
  mkState (alldaychecked st) (recurringchecked st) (publicchecked st)
    (registrablechecked st) (eventDeleteModalIsOpen st)
    (recurringEventUpdateModalIsOpen st) (eventStartDate st)
    (eventEndDate st) v (formState st) (recurringEventDeleteType st)
    (recurringEventUpdateType st) (recurringEventUpdateOptions st)
    (shouldShowRecurringEventUpdateOptions st) (recurrenceRuleChanged
    st) (instanceDatesChanged st) (isRegistered st).

Definition setFormState (v : FormState) (st : State) : State :=
  mkState (alldaychecked st) (recurringchecked st) (publicchecked st)
    (registrablechecked st) (eventDeleteModalIsOpen st)
    (recurringEventUpdateModalIsOpen st) (eventStartDate st)
    (eventEndDate st) (recurrenceRuleState st) v
    (recurringEventDeleteType st) (recurringEventUpdateType st)
    (recurringEventUpdateOptions st)
    (shouldShowRecurringEventUpdateOptions st) (recurrenceRuleChanged
    st) (instanceDatesChanged st) (isRegistered st).

Definition setRecurringEventDeleteType (v : RecurringEventMutationType) (st : State) : State :=
  mkState (alldaychecked st) (recurringchecked st) (publicchecked st)
    (registrablechecked st) (eventDeleteModalIsOpen st)
    (recurringEventUpdateModalIsOpen st) (eventStartDate st)
    (eventEndDate st) (recurrenceRuleState st) (formState st) v
    (recurringEventUpdateType st) (recurringEventUpdateOptions st)
    (shouldShowRecurringEventUpdateOptions st) (recurrenceRuleChanged
    st) (instanceDatesChanged st) (isRegistered st).

Definition setRecurringEventUpdateType (v : RecurringEventMutationType) (st : State) : State :=
  mkState (alldaychecked st) (recurringchecked st) (publicchecked st)
    (registrablechecked st) (eventDeleteModalIsOpen st)
    (recurringEventUpdateModalIsOpen st) (eventStartDate st)
    (eventEndDate st) (recurrenceRuleState st) (formState st)
    (recurringEventDeleteType st) v (recurringEventUpdateOptions st)
    (shouldShowRecurringEventUpdateOptions st) (recurrenceRuleChanged
    st) (instanceDatesChanged st) (isRegistered st).

Definition setRecurringEventUpdateOptions (v : list RecurringEventMutationType) (st : State) : State :=
  mkState (alldaychecked st) (recurringchecked st) (publicchecked st)
    (registrablechecked st) (eventDeleteModalIsOpen st)
    (recurringEventUpdateModalIsOpen st) (eventStartDate st)
    (eventEndDate st) (recurrenceRuleState st) (formState st)
    (recurringEventDeleteType st) (recurringEventUpdateType st) v
    (shouldShowRecurringEventUpdateOptions st) (recurrenceRuleChanged
    st) (instanceDatesChanged st) (isRegistered st).

Definition setShouldShowRecurringEventUpdateOptions (v : bool) (st : State) : State :=
  mkState (alldaychecked st) (recurringchecked st) (publicchecked st)
    (registrablechecked st) (eventDeleteModalIsOpen st)
    (recurringEventUpdateModalIsOpen st) (eventStartDate st)
    (eventEndDate st) (recurrenceRuleState st) (formState st)
    (recurringEventDeleteType st) (recurringEventUpdateType st)
    (recurringEventUpdateOptions st) v (recurrenceRuleChanged st)
    (instanceDatesChanged st) (isRegistered st).

Definition setRecurrenceRuleChanged (v : bool) (st : State) : State :=
  mkState (alldaychecked st) (recurringchecked st) (publicchecked st)
    (registrablechecked st) (eventDeleteModalIsOpen st)
    (recurringEventUpdateModalIsOpen st) (eventStartDate st)
    (eventEndDate st) (recurrenceRuleState st) (formState st)
    (recurringEventDeleteType st) (recurringEventUpdateType st)
    (recurringEventUpdateOptions st)
    (shouldShowRecurringEventUpdateOptions st) v (instanceDatesChanged
    st) (isRegistered st).

Definition setInstanceDatesChanged (v : bool) (st : State) : State :=
  mkState (alldaychecked st) (recurringchecked st) (publicchecked st)
    (registrablechecked st) (eventDeleteModalIsOpen st)
    (recurringEventUpdateModalIsOpen st) (eventStartDate st)
    (eventEndDate st) (recurrenceRuleState st) (formState st)
    (recurringEventDeleteType st) (recurringEventUpdateType st)
    (recurringEventUpdateOptions st)
    (shouldShowRecurringEventUpdateOptions st) (recurrenceRuleChanged
    st) v (isRegistered st).

Definition setIsRegistered (v : option bool) (st : State) : State :=
  mkState (alldaychecked st) (recurringchecked st) (publicchecked st)
    (registrablechecked st) (eventDeleteModalIsOpen st)
    (recurringEventUpdateModalIsOpen st) (eventStartDate st)
    (eventEndDate st) (recurrenceRuleState st) (formState st)
    (recurringEventDeleteType st) (recurringEventUpdateType st)
    (recurringEventUpdateOptions st)
    (shouldShowRecurringEventUpdateOptions st) (recurrenceRuleChanged
    st) (instanceDatesChanged st) v.

(** The [variables] object handed to the update mutation.  [None] stands
    for [undefined]; [recurrenceEndDate] may moreover be [null], written
    [Some None]. *)
Module Vars.
Record t := mk {
  id : string;
  title : string;
  description : string;
  isPublic : bool;
  recurring : bool;
  recurringEventUpdateType : option RecurringEventMutationType;
  isRegisterable : bool;
  allDay : bool;
  startDate : string;
  endDate : string;
  location : string;
  startTime : option string;
  endTime : option string;
  recurrenceStartDate : option string;
  recurrenceEndDate : option (option string);
  frequency : option Frequency;
  weekDays : option (list WeekDays);
  interval : option Z;
  count : option Z;
  weekDayOccurenceInMonth : option Z;
}.
End Vars.

(** What awaiting a mutation yields: a result carrying data, a result
    without data, or a rejection caught by the handler. *)
Inductive MutationOutcome := Data | NoData | Rejected.

(** Calls the handlers make on their collaborators, in program order. *)
Inductive Call :=
| UpdateEvent (variables : Vars.t)
| DeleteEvent (id : string)
    (recurringEventDeleteType : option RecurringEventMutationType)
| RegisterEvent (eventId : string)
| ToastSuccess (message : string)
| HideViewModal
| RefetchEvents
| ErrorHandler.

(** [s.split('.')[0]]: the part of [s] before its first dot. *)
Fixpoint beforeDot (s : string) : string :=
  match s with
  | EmptyString => EmptyString
  | String c rest =>
      if Ascii.eqb c "." then EmptyString else String c (beforeDot rest)
  end.

(** [time?.split('.')[0] || '08:00:00']. *)
Definition timeOrDefault (time : option string) : string :=
  match time with
  | Some s => if String.eqb (beforeDot s) "" then "08:00:00" else beforeDot s
  | None => "08:00:00"
  end.

Section Component.

(** Imports whose text is not at hand, taken as parameters: the two
    change detectors of [utils/recurrenceUtils], the [Date] constructor
    applied to a date string, and the translation function. *)
Variable haveInstanceDatesChanged : string -> string -> string -> string -> bool.
Variable hasRecurrenceRuleChanged : option Rule.t -> RuleState.t -> bool.
Variable newDate : string -> Js.Date.
Variable t : string -> string.

(** The props of one mounted component and the stored user id. *)
Variable eventListCardProps : InterfaceEventListCard.
Variable userId : option string.

(** *** Initial state (the [useState] initialisers) *)

Definition isInitiallyRegistered : option bool :=
  existsb (fun attendee => bool_decide (Some attendee = userId))
    <$> attendees eventListCardProps.

Definition initialRecurrenceRuleState (eventStartDate : Js.Date)
    : RuleState.t :=
  {| RuleState.recurrenceStartDate := eventStartDate;
     RuleState.recurrenceEndDate := None;
     RuleState.frequency := WEEKLY;
     RuleState.weekDays :=
       option_list (Days !! Z.to_nat (Js.getDay eventStartDate));
     RuleState.interval := 1;
     RuleState.count := None;
     RuleState.weekDayOccurenceInMonth := None |}.

Definition initialState : State :=
  {| alldaychecked := allDay eventListCardProps;
     recurringchecked := recurring eventListCardProps;
     publicchecked := isPublic eventListCardProps;
     registrablechecked := isRegisterable eventListCardProps;
     eventDeleteModalIsOpen := false;
     recurringEventUpdateModalIsOpen := false;
     eventStartDate := newDate (startDate eventListCardProps);
     eventEndDate := newDate (endDate eventListCardProps);
     recurrenceRuleState :=
       initialRecurrenceRuleState (newDate (startDate eventListCardProps));
     formState :=
       {| Form.title := title eventListCardProps;
          Form.eventdescrip := description eventListCardProps;
          Form.location := location eventListCardProps;
          Form.startTime := timeOrDefault (startTime eventListCardProps);
          Form.endTime := timeOrDefault (endTime eventListCardProps) |};
     recurringEventDeleteType := thisInstance;
     recurringEventUpdateType := thisInstance;
     recurringEventUpdateOptions :=
       [thisInstance; thisAndFollowingInstances; allInstances];
     shouldShowRecurringEventUpdateOptions := true;
     recurrenceRuleChanged := false;
     instanceDatesChanged := false;
     isRegistered := isInitiallyRegistered |}.

(** *** Effects *)

(** The effect on [eventModalIsOpen]: load the stored rule into the form. *)
Definition ruleStateOfRule (recurrenceRule : Rule.t) : RuleState.t :=
  {| RuleState.recurrenceStartDate :=
       newDate (Rule.recurrenceStartDate recurrenceRule);
     RuleState.recurrenceEndDate :=
       if Js.truthyString (Rule.recurrenceEndDate recurrenceRule)
       then newDate <$> Rule.recurrenceEndDate recurrenceRule
       else None;
     RuleState.frequency := Rule.frequency recurrenceRule;
     RuleState.weekDays := Rule.weekDays recurrenceRule;
     RuleState.interval := Rule.interval recurrenceRule;
     RuleState.count := Rule.count recurrenceRule;
     RuleState.weekDayOccurenceInMonth :=
       Rule.weekDayOccurenceInMonth recurrenceRule |}.

Definition openEffect (eventModalIsOpen : bool) (st : State) : State :=
  if eventModalIsOpen then
    match recurrenceRule eventListCardProps with
    | Some recurrenceRule =>
        setRecurrenceRuleState (ruleStateOfRule recurrenceRule) st
    | None => st
    end
  else st.

(** The effect on the two dates and the rule state: recompute the change
    flags. *)
Definition detectEffect (st : State) : State :=
  let st1 :=
    setInstanceDatesChanged
      (haveInstanceDatesChanged
         (startDate eventListCardProps) (endDate eventListCardProps)
         (Js.format_YYYY_MM_DD (eventStartDate st))
         (Js.format_YYYY_MM_DD (eventEndDate st))) st in
  setRecurrenceRuleChanged
    (hasRecurrenceRuleChanged
       (recurrenceRule eventListCardProps) (recurrenceRuleState st)) st1.

(** The flags are the values the detectors return on these props and on
    the dates and the rule the form holds. *)
Definition flagsFresh (st : State) : Prop :=
  instanceDatesChanged st
  = haveInstanceDatesChanged
      (startDate eventListCardProps) (endDate eventListCardProps)
      (Js.format_YYYY_MM_DD (eventStartDate st))
      (Js.format_YYYY_MM_DD (eventEndDate st))
  /\ recurrenceRuleChanged st
     = hasRecurrenceRuleChanged
         (recurrenceRule eventListCardProps) (recurrenceRuleState st).

(** The effect on the two change flags: the four [if] statements in program
    order, each threading the state setters it calls.  The flags are read
    from the render the effect belongs to. *)
Definition scopeEffect (st : State) : State :=
  let instanceDatesChanged := instanceDatesChanged st in
  let recurrenceRuleChanged := recurrenceRuleChanged st in
  let st1 :=
    if instanceDatesChanged then
      setShouldShowRecurringEventUpdateOptions true
        (setRecurringEventUpdateOptions
           [thisInstance; thisAndFollowingInstances]
           (setRecurringEventUpdateType thisInstance st))
    else st in
  let st2 :=
    if recurrenceRuleChanged then
      setShouldShowRecurringEventUpdateOptions true
        (setRecurringEventUpdateOptions
           [thisAndFollowingInstances; allInstances]
           (setRecurringEventUpdateType thisAndFollowingInstances st1))
    else st1 in
  let st3 :=
    if recurrenceRuleChanged && instanceDatesChanged then
      setShouldShowRecurringEventUpdateOptions false
        (setRecurringEventUpdateType thisAndFollowingInstances st2)
    else st2 in
  if negb recurrenceRuleChanged && negb instanceDatesChanged then
    setShouldShowRecurringEventUpdateOptions true
      (setRecurringEventUpdateOptions
         [thisInstance; thisAndFollowingInstances; allInstances]
         (setRecurringEventUpdateType thisInstance st3))
  else st3.

(** *** Handlers *)

(** The [variables] of the update mutation, field by field. *)
Definition updateVariables (st : State) : Vars.t :=
  let rule := recurrenceRuleState st in
  let fmt := Js.format_YYYY_MM_DD in
  {| Vars.id := _id eventListCardProps;
     Vars.title := Form.title (formState st);
     Vars.description := Form.eventdescrip (formState st);
     Vars.isPublic := publicchecked st;
     Vars.recurring := recurringchecked st;
     Vars.recurringEventUpdateType :=
       if recurringchecked st then Some (recurringEventUpdateType st)
       else None;
     Vars.isRegisterable := registrablechecked st;
     Vars.allDay := alldaychecked st;
     Vars.startDate := fmt (eventStartDate st);
     Vars.endDate := fmt (eventEndDate st);
     Vars.location := Form.location (formState st);
     Vars.startTime :=
       if negb (alldaychecked st) then Some (Form.startTime (formState st))
       else None;
     Vars.endTime :=
       if negb (alldaychecked st) then Some (Form.endTime (formState st))
       else None;
     Vars.recurrenceStartDate :=
       if recurringchecked st then
         if bool_decide
              (recurringEventUpdateType st = thisAndFollowingInstances)
            && (instanceDatesChanged st || recurrenceRuleChanged st)
         then Some (fmt (eventStartDate st))
         else Some (fmt (RuleState.recurrenceStartDate rule))
       else None;
     Vars.recurrenceEndDate :=
       if recurringchecked st then
         match RuleState.recurrenceEndDate rule with
         | Some recurrenceEndDate => Some (Some (fmt recurrenceEndDate))
         | None => Some None
         end
       else None;
     Vars.frequency :=
       if recurringchecked st then Some (RuleState.frequency rule)
       else None;
     Vars.weekDays :=
       if recurringchecked st
          && (bool_decide (RuleState.frequency rule = WEEKLY)
              || (bool_decide (RuleState.frequency rule = MONTHLY)
                  && Js.truthyNumber
                       (RuleState.weekDayOccurenceInMonth rule)))
       then Some (RuleState.weekDays rule)
       else None;
     Vars.interval :=
       if recurringchecked st then Some (RuleState.interval rule)
       else None;
     Vars.count :=
       if recurringchecked st then RuleState.count rule else None;
     Vars.weekDayOccurenceInMonth :=
       if recurringchecked st
       then RuleState.weekDayOccurenceInMonth rule
       else None |}.

(** A handler returns the next state and the calls it made; the outcome
    of the awaited mutation is its second argument. *)
Definition afterSuccess : list Call :=
  HideViewModal
  :: (if refetchEvents eventListCardProps then [RefetchEvents] else []).

Definition updateEventHandler (st : State) (outcome : MutationOutcome)
    : State * list Call :=
  let call := UpdateEvent (updateVariables st) in
  match outcome with
  | Data =>
      (setRecurringEventUpdateModalIsOpen false st,
       call :: ToastSuccess (t "eventUpdated") :: afterSuccess)
  | NoData => (st, [call])
  | Rejected => (st, [call; ErrorHandler])
  end.

Definition handleEventUpdate (st : State) (outcome : MutationOutcome)
    : State * list Call :=
  if negb (recurring eventListCardProps) then
    updateEventHandler st outcome
  else if shouldShowRecurringEventUpdateOptions st then
    (setRecurringEventUpdateModalIsOpen true st, [])
  else updateEventHandler st outcome.

Definition deleteEventHandler (st : State) (outcome : MutationOutcome)
    : State * list Call :=
  let call :=
    DeleteEvent (_id eventListCardProps)
      (if recurring eventListCardProps
       then Some (recurringEventDeleteType st) else None) in
  match outcome with
  | Data =>
      (setEventDeleteModalIsOpen false st,
       call :: ToastSuccess (t "eventDeleted") :: afterSuccess)
  | NoData => (st, [call])
  | Rejected => (st, [call; ErrorHandler])
  end.

Definition toggleDeleteModal (st : State) : State :=
  setEventDeleteModalIsOpen (negb (eventDeleteModalIsOpen st)) st.

Definition registerEventHandler (st : State) (outcome : MutationOutcome)
    : State * list Call :=
  if negb (Js.truthyBool (isRegistered st)) then
    let call := RegisterEvent (_id eventListCardProps) in
    match outcome with
    | Data =>
        (setIsRegistered (Some true) st,
         [call;
          ToastSuccess
            ("Successfully registered for " +:+ title eventListCardProps);
          HideViewModal])
    | NoData => (st, [call])
    | Rejected => (st, [call; ErrorHandler])
    end
  else (st, []).

Definition toggleRecurringEventUpdateModal (st : State) : State :=
  setRecurringEventUpdateModalIsOpen
    (negb (recurringEventUpdateModalIsOpen st)) st.

(** *** The component as a transition system *)

(** What can happen to a mounted component: the [eventModalIsOpen] prop
    changes, a child calls one of the setters it was given, or a handler
    runs (with the outcome of the mutation it awaits). *)
Inductive Action :=
| ModalOpened (eventModalIsOpen : bool)
| SetEventStartDate (date : Js.Date)
| SetEventEndDate (date : Js.Date)
| SetRecurrenceRuleState (rule : RuleState.t)
| SetAllDayChecked (checked : bool)
| SetRecurringChecked (checked : bool)
| SetPublicChecked (checked : bool)
| SetRegistrableChecked (checked : bool)
| SetFormState (form : FormState)
| SetRecurringEventUpdateType (type : RecurringEventMutationType)
| SetRecurringEventDeleteType (type : RecurringEventMutationType)
| HandleEventUpdate (outcome : MutationOutcome)
| UpdateEventHandler (outcome : MutationOutcome)
| DeleteEventHandler (outcome : MutationOutcome)
| RegisterEventHandler (outcome : MutationOutcome)
| ToggleDeleteModal
| ToggleRecurringEventUpdateModal.

Definition perform (a : Action) (st : State) : State * list Call :=
  match a with
  | ModalOpened eventModalIsOpen => (openEffect eventModalIsOpen st, [])
  | SetEventStartDate date => (setEventStartDate date st, [])
  | SetEventEndDate date => (setEventEndDate date st, [])
  | SetRecurrenceRuleState rule => (setRecurrenceRuleState rule st, [])
  | SetAllDayChecked checked => (setAlldaychecked checked st, [])
  | SetRecurringChecked checked => (setRecurringchecked checked st, [])
  | SetPublicChecked checked => (setPublicchecked checked st, [])
  | SetRegistrableChecked checked => (setRegistrablechecked checked st, [])
  | SetFormState form => (setFormState form st, [])
  | SetRecurringEventUpdateType type =>
      (setRecurringEventUpdateType type st, [])
  | SetRecurringEventDeleteType type =>
      (setRecurringEventDeleteType type st, [])
  | HandleEventUpdate outcome => handleEventUpdate st outcome
  | UpdateEventHandler outcome => updateEventHandler st outcome
  | DeleteEventHandler outcome => deleteEventHandler st outcome
  | RegisterEventHandler outcome => registerEventHandler st outcome
  | ToggleDeleteModal => (toggleDeleteModal st, [])
  | ToggleRecurringEventUpdateModal =>
      (toggleRecurringEventUpdateModal st, [])
  end.

Definition changeFlags (st : State) : bool * bool :=
  (instanceDatesChanged st, recurrenceRuleChanged st).

(** The dependencies of the change-detection effect are [eventStartDate],
    [eventEndDate] and [recurrenceRuleState], which hold objects and are
    compared by identity: the effect runs after an action that stores a new
    object in one of them.  The three setters are handed new objects, and
    the modal-open effect stores one when it loads the stored rule.  The
    props are not among the dependencies. *)
Definition assignsDependency (a : Action) : bool :=
  match a with
  | ModalOpened eventModalIsOpen =>
      eventModalIsOpen
      && bool_decide (is_Some (recurrenceRule eventListCardProps))
  | SetEventStartDate _ | SetEventEndDate _ | SetRecurrenceRuleState _ =>
      true
  | _ => false
  end.

(** The renders that follow a state change, up to the render in which no
    effect runs any more.  The change-detection effect runs when one of its
    dependencies was assigned; the scope effect, whose dependencies are the
    two flags, runs when a flag differs from the previous render. *)
Definition rerender (assigned : bool) (previous st : State) : State :=
  let st1 := if assigned then detectEffect st else st in
  if bool_decide (changeFlags st1 = changeFlags previous) then st1
  else scopeEffect st1.

(** One action and the renders that follow it.  A handler is run to its
    end: the mutation it awaits settles, with the given outcome, before the
    next action.  The register handler, which tests [isRegistered] before
    its [await], is also given in two halves below. *)
Definition step (st : State) (a : Action) : State * list Call :=
  let '(st1, calls) := perform a st in
  (rerender (assignsDependency a) st st1, calls).

(** Mounting runs every effect once on the initial render, then re-renders. *)
Definition mount (eventModalIsOpen : bool) : State :=
  rerender true initialState
    (openEffect eventModalIsOpen (scopeEffect initialState)).

(** A run of the component: the states and calls produced by a list of
    actions. *)
Fixpoint run (st : State) (actions : list Action) : State * list Call :=
  match actions with
  | [] => (st, [])
  | a :: rest =>
      let '(st1, calls1) := step st a in
      let '(st2, calls2) := run st1 rest in
      (st2, (calls1 ++ calls2)%list)
  end.

(** The update modal offers the options of [recurringEventUpdateOptions]; an
    action is offered in a state when the scope it selects, if any, is one of
    them. *)
Definition offered (st : State) (a : Action) : Prop :=
  match a with
  | SetRecurringEventUpdateType type =>
      type ∈ recurringEventUpdateOptions st
  | _ => True
  end.

Inductive reachable : State -> Prop :=
| reachable_mount eventModalIsOpen : reachable (mount eventModalIsOpen)
| reachable_step st a :
    reachable st -> offered st a -> reachable (step st a).1.

(** *** The register handler around its [await] *)

(** Up to the [await]: the guard on [isRegistered] and the mutation call. *)
Definition registerEventRequest (st : State) : list Call :=
  if negb (Js.truthyBool (isRegistered st))
  then [RegisterEvent (_id eventListCardProps)] else [].

(** From the [await] on, once the mutation has settled.  This half reads
    no state; it applies [setIsRegistered] to the state of that moment. *)
Definition registerEventSettled (outcome : MutationOutcome) (st : State)
    : State * list Call :=
  match outcome with
  | Data =>
      (setIsRegistered (Some true) st,
       [ToastSuccess
          ("Successfully registered for " +:+ title eventListCardProps);
        HideViewModal])
  | NoData => (st, [])
  | Rejected => (st, [ErrorHandler])
  end.

(** A session in which register requests may be awaiting their outcome: a
    click on "register", the settling of a request in flight, or any action
    of the component. *)
Inductive SessionEvent :=
| RegisterClicked
| RegisterSettled (outcome : MutationOutcome)
| Acted (a : Action).

(** The state of such a session: the component state and the number of
    register requests in flight.  Nothing settles when none is in flight. *)
Definition sessionStep (session : State * nat) (e : SessionEvent)
    : (State * nat) * list Call :=
  let '(st, inFlight) := session in
  match e with
  | RegisterClicked =>
      let calls := registerEventRequest st in
      ((st, (inFlight + length calls)%nat), calls)
  | RegisterSettled outcome =>
      match inFlight with
      | S others =>
          let '(st1, calls) := registerEventSettled outcome st in
          ((rerender false st st1, others), calls)
      | O => (session, [])
      end
  | Acted a => let '(st1, calls) := step st a in ((st1, inFlight), calls)
  end.

Fixpoint sessionRun (session : State * nat) (events : list SessionEvent)
    : (State * nat) * list Call :=
  match events with
  | [] => (session, [])
  | e :: rest =>
      let '(session1, calls1) := sessionStep session e in
      let '(session2, calls2) := sessionRun session1 rest in
      (session2, (calls1 ++ calls2)%list)
  end.

End Component.

(** An action that leaves the recurrence start date of the form's rule at
    [date]: every action but a rule assignment with another start date. *)
Definition keepsRecurrenceStartDate (date : Js.Date) (a : Action) : Prop :=
  match a with
  | SetRecurrenceRuleState rule => RuleState.recurrenceStartDate rule = date
  | _ => True
  end.

(** Calls of the register mutation. *)
Definition isRegisterCall (c : Call) : Prop :=
  match c with
  | RegisterEvent _ => True
  | _ => False
  end.

(** *** The edit-scope decision read off the component state *)

Record EditScopeDecision := mkDecision {
  availableScopes : list RecurringEventMutationType;
  defaultScope : RecurringEventMutationType;
  requiresUserChoice : bool;
}.

(** The scopes a submission offers.  [handleEventUpdate] opens the update
    modal, which lists [recurringEventUpdateOptions], only when
    [shouldShowRecurringEventUpdateOptions] is set; otherwise it submits at
    once with the selected scope, which is then the only one on offer and the
    stored list is not read. *)
Definition offeredScopes (st : State) : list RecurringEventMutationType :=
  if shouldShowRecurringEventUpdateOptions st
  then recurringEventUpdateOptions st
  else [recurringEventUpdateType st].

Definition decisionOf (st : State) : EditScopeDecision :=
  {| availableScopes := offeredScopes st;
     defaultScope := recurringEventUpdateType st;
     requiresUserChoice := shouldShowRecurringEventUpdateOptions st |}.

(** A form-field change that leaves the flags at [datesChanged] and
    [ruleChanged], followed by the scope effect. *)
Definition recompute (datesChanged ruleChanged : bool) (st : State) : State :=
  scopeEffect
    (setRecurrenceRuleChanged ruleChanged
       (setInstanceDatesChanged datesChanged st)).

(** The table of section 4.3 of the specification, row by row. *)
Definition deriveScopeOptions_spec (datesChanged ruleChanged : bool)
    : EditScopeDecision :=
  match datesChanged, ruleChanged with
  | false, false =>
      mkDecision [thisInstance; thisAndFollowingInstances; allInstances]
        thisInstance true
  | true, false =>
      mkDecision [thisInstance; thisAndFollowingInstances] thisInstance true
  | false, true =>
      mkDecision [thisAndFollowingInstances; allInstances]
        thisAndFollowingInstances true
  | true, true =>
      mkDecision [thisAndFollowingInstances] thisAndFollowingInstances false
  end.

(** The options and the visibility of the update modal that the scope effect
    leaves behind, as functions of the two flags. *)
Definition optionsFor (flags : bool * bool)
    : list RecurringEventMutationType :=
  let '(datesChanged, ruleChanged) := flags in
  if ruleChanged then [thisAndFollowingInstances; allInstances]
  else if datesChanged then [thisInstance; thisAndFollowingInstances]
  else [thisInstance; thisAndFollowingInstances; allInstances].

Definition showsOptionsFor (flags : bool * bool) : bool :=
  negb (flags.1 && flags.2).

Definition defaultFor (flags : bool * bool) : RecurringEventMutationType :=
  if flags.2 then thisAndFollowingInstances else thisInstance.

(** The scope part of a state agrees with the given flags: the options and
    the modal's visibility are those the effect computes, and the selected
    scope is one of the options. *)
Definition scopeAgrees (flags : bool * bool) (st : State) : Prop :=
  recurringEventUpdateOptions st = optionsFor flags
  /\ shouldShowRecurringEventUpdateOptions st = showsOptionsFor flags
  /\ recurringEventUpdateType st ∈ recurringEventUpdateOptions st.

End EventListCardModals.

(** ** A concrete edit session

    A weekly series and the helpers instantiated by the specification's
    change detectors, used to evaluate the component on concrete inputs. *)

Module Sample.
Import EventListCardModals.

(** Decimal value of a string of digits. *)
Fixpoint digits (s : string) (acc : Z) : Z :=
  match s with
  | EmptyString => acc
  | String c rest => digits rest (10 * acc + (Z.of_nat (nat_of_ascii c) - 48))
  end.

(** [new Date(s)] for a [YYYY-MM-DD] string, read in the local zone. *)
Definition parseDate (s : string) : Js.Date :=
  Js.mkDate
    (Js.mkCalendarDate (digits (substring 0 4 s) 0)
       (digits (substring 5 2 s) 0) (digits (substring 8 2 s) 0))
    0.

Definition ruleOfRecord (r : Rule.t) : RecurrenceSpec.RecurrenceRule :=
  RecurrenceSpec.mkRule
    (Js.calendar (parseDate (Rule.recurrenceStartDate r)))
    (Js.calendar ∘ parseDate <$> Rule.recurrenceEndDate r)
    (Rule.frequency r) (list_to_set (Rule.weekDays r)) (Rule.interval r)
    (Rule.count r)
    (Rule.weekDayOccurenceInMonth r).

Definition ruleOfState (r : RuleState.t) : RecurrenceSpec.RecurrenceRule :=
  RecurrenceSpec.mkRule
    (Js.calendar (RuleState.recurrenceStartDate r))
    (Js.calendar <$> RuleState.recurrenceEndDate r)
    (RuleState.frequency r) (list_to_set (RuleState.weekDays r))
    (RuleState.interval r) (RuleState.count r) (RuleState.weekDayOccurenceInMonth r).

Definition haveInstanceDatesChanged (originalStart originalEnd : string)
    (editedStart editedEnd : string) : bool :=
  RecurrenceSpec.haveInstanceDatesChanged
    (parseDate originalStart) (parseDate originalEnd)
    (parseDate editedStart) (parseDate editedEnd).

Definition hasRecurrenceRuleChanged (original : option Rule.t)
    (edited : RuleState.t) : bool :=
  RecurrenceSpec.hasRecurrenceRuleChanged
    (ruleOfRecord <$> original) (Some (ruleOfState edited)).

Definition translate (key : string) : string := key.

Definition weeklyRule : Rule.t :=
  {| Rule.recurrenceStartDate := "2023-12-04";
     Rule.recurrenceEndDate := None;
     Rule.frequency := WEEKLY;
     Rule.weekDays := [MONDAY];
     Rule.interval := 1;
     Rule.count := None;
     Rule.weekDayOccurenceInMonth := None |}.

Definition event : InterfaceEventListCard :=
  {| _id := "event1";
     title := "Weekly sync";
     description := "Team meeting";
     location := "Room 1";
     startDate := "2024-01-01";
     endDate := "2024-01-01";
     startTime := Some "09:00:00.000Z";
     endTime := Some "10:00:00.000Z";
     allDay := false;
     recurring := true;
     isPublic := true;
     isRegisterable := true;
     recurrenceRule := Some weeklyRule;
     attendees := Some ["user7"; "user1"];
     refetchEvents := true |}.

Definition userId : option string := Some "user1".

(** The session right after the modal of [event] has been opened. *)
Definition opened : State :=
  mount haveInstanceDatesChanged hasRecurrenceRuleChanged parseDate event
    userId true.

Definition sampleStep (st : State) (a : Action) : State * list Call :=
  step haveInstanceDatesChanged hasRecurrenceRuleChanged parseDate translate
    event st a.

Definition sampleRun (st : State) (actions : list Action)
    : State * list Call :=
  run haveInstanceDatesChanged hasRecurrenceRuleChanged parseDate translate
    event st actions.

(** The instance moved one week later. *)
Definition movedOneWeek : list Action :=
  [SetEventStartDate (parseDate "2024-01-08");
   SetEventEndDate (parseDate "2024-01-08")].

(** The form's rule with the interval set to two weeks. *)
Definition everyOtherWeek : Action :=
  SetRecurrenceRuleState
    {| RuleState.recurrenceStartDate := parseDate "2023-12-04";
       RuleState.recurrenceEndDate := None;
       RuleState.frequency := WEEKLY;
       RuleState.weekDays := [MONDAY];
       RuleState.interval := 2;
       RuleState.count := None;
       RuleState.weekDayOccurenceInMonth := None |}.

(** The form's rule turned into "second Tuesday of the month". *)
Definition secondTuesday : RuleState.t :=
  {| RuleState.recurrenceStartDate := parseDate "2023-12-04";
     RuleState.recurrenceEndDate := None;
     RuleState.frequency := MONTHLY;
     RuleState.weekDays := [TUESDAY];
     RuleState.interval := 1;
     RuleState.count := None;
     RuleState.weekDayOccurenceInMonth := Some 2 |}.

(** The form's rule turned into a yearly one, the weekday list left as it
    was. *)
Definition yearly : RuleState.t :=
  {| RuleState.recurrenceStartDate := parseDate "2023-12-04";
     RuleState.recurrenceEndDate := None;
     RuleState.frequency := YEARLY;
     RuleState.weekDays := [MONDAY];
     RuleState.interval := 1;
     RuleState.count := None;
     RuleState.weekDayOccurenceInMonth := None |}.

(** A submission made after unchecking the recurring box and checking the
    all-day box. *)
Definition allDaySubmission : State :=
  setAlldaychecked true (setRecurringchecked false opened).

(** Recurring submissions of the two rules above. *)
Definition secondTuesdaySubmission : State :=
  (sampleStep opened (SetRecurrenceRuleState secondTuesday)).1.

Definition yearlySubmission : State :=
  (sampleStep opened (SetRecurrenceRuleState yearly)).1.

(** The session after the instance was moved by a week and the interval
    changed. *)
Definition bothChanged : State :=
  (sampleRun opened (movedOneWeek ++ [everyOtherWeek])).1.

(** The same changes made after the recurring box was unchecked. *)
Definition uncheckedBothChanged : State :=
  (sampleRun opened
     (SetRecurringChecked false :: movedOneWeek ++ [everyOtherWeek])).1.

(** The form's rule as stored, but for a recurrence start date of the 5th
    of February 2024, and the session after the form was given it. *)
Definition laterStart : Action :=
  SetRecurrenceRuleState
    {| RuleState.recurrenceStartDate := parseDate "2024-02-05";
       RuleState.recurrenceEndDate := None;
       RuleState.frequency := WEEKLY;
       RuleState.weekDays := [MONDAY];
       RuleState.interval := 1;
       RuleState.count := None;
       RuleState.weekDayOccurenceInMonth := None |}.

Definition startReplaced : State := (sampleStep opened laterStart).1.

(** The event as a refetch returns it once another session has moved it to
    the 8th of January. *)
Definition refetched : InterfaceEventListCard :=
  {| _id := "event1";
     title := "Weekly sync";
     description := "Team meeting";
     location := "Room 1";
     startDate := "2024-01-08";
     endDate := "2024-01-08";
     startTime := Some "09:00:00.000Z";
     endTime := Some "10:00:00.000Z";
     allDay := false;
     recurring := true;
     isPublic := true;
     isRegisterable := true;
     recurrenceRule := Some weeklyRule;
     attendees := Some ["user7"; "user1"];
     refetchEvents := true |}.

(** A user who is not among the attendees, and the session opened for
    them. *)
Definition visitor : option string := Some "user9".

Definition openedByVisitor : State :=
  mount haveInstanceDatesChanged hasRecurrenceRuleChanged parseDate event
    visitor true.

(** The form's rule with the frequency changed to monthly. *)
Definition monthly : Action :=
  SetRecurrenceRuleState
    {| RuleState.recurrenceStartDate := parseDate "2023-12-04";
       RuleState.recurrenceEndDate := None;
       RuleState.frequency := MONTHLY;
       RuleState.weekDays := [MONDAY];
       RuleState.interval := 1;
       RuleState.count := None;
       RuleState.weekDayOccurenceInMonth := None |}.

End Sample.

(** ** Dates built from a year, a month and a day *)

Module JsDate.

(** The civil-from-days computation, in the March-based years that
    [Js.daysFromCivil] counts in: first day of year [yoe] of a 400-year era,
    year of a day of the era, month (0 is March) of a day of the year, and
    first day of a month. *)
Definition yearStart (yoe : Z) : Z := 365 * yoe + yoe / 4 - yoe / 100.

Definition yearOfEra (doe : Z) : Z :=
  (doe - doe / 1460 + doe / 36524 - doe / 146096) / 365.

Definition monthOfYear (doy : Z) : Z := (5 * doy + 2) / 153.

Definition monthStart (mp : Z) : Z := (153 * mp + 2) / 5.

(** The calendar day of a day number (days since 1970-01-01): the inverse of
    [Js.daysFromCivil]. *)
Definition civilFromDays (z : Z) : Js.CalendarDate :=
  let z := z + 719468 in
  let era := z / 146097 in
  let doe := z - era * 146097 in
  let yoe := yearOfEra doe in
  let doy := doe - yearStart yoe in
  let mp := monthOfYear doy in
  let m := if mp <? 10 then mp + 3 else mp - 9 in
  Js.mkCalendarDate (yoe + era * 400 + (if m <=? 2 then 1 else 0)) m
    (doy - monthStart mp + 1).

(** ECMAScript [MakeDay]: the day number of day [date] of month [month]
    (0-based, any integer) of [year]; months and days out of range carry
    over. *)
Definition makeDay (year month date : Z) : Z :=
  Js.daysFromCivil (Js.mkCalendarDate (year + month / 12) (month mod 12 + 1) 1)
  + date - 1.

(** Local midnight of the day with the given day number. *)
Definition ofDayNumber (z : Z) : Js.Date := Js.mkDate (civilFromDays z) 0.

(** [new Date(year, month, date)]: local midnight of the day; a year from 0
    to 99 stands for 1900 + year. *)
Definition newDate (year month date : Z) : Js.Date :=
  let year := if (0 <=? year) && (year <=? 99) then 1900 + year else year in
  ofDayNumber (makeDay year month date).

Definition getFullYear (d : Js.Date) : Z := Js.year (Js.calendar d).
Definition getMonth (d : Js.Date) : Z := Js.month (Js.calendar d) - 1.
Definition getDate (d : Js.Date) : Z := Js.day (Js.calendar d).

(** [d.setDate(date)]: the day [date] of the month [d] lies in, at the time
    of day of [d]. *)
Definition setDate (d : Js.Date) (date : Z) : Js.Date :=
  Js.mkDate (civilFromDays (makeDay (getFullYear d) (getMonth d) date))
    (Js.msOfDay d).

(** The day number of a date. *)
Definition dayNumber (d : Js.Date) : Z := Js.daysFromCivil (Js.calendar d).

(** [a <= b] on dates: comparison of the time values. *)
Definition leb (a b : Js.Date) : bool :=
  (dayNumber a <? dayNumber b)
  || ((dayNumber a =? dayNumber b) && (Js.msOfDay a <=? Js.msOfDay b)).

(** The first of January of year 100; [new Date(y, m, d)] reads a year from
    0 to 99 as 19yy, so the getters of earlier days do not build the days
    they come from. *)
Definition year100 : Z := makeDay 100 0 1.

(** Number of days of month [month] (0-based, any integer) of [year]. *)
Definition daysInMonth (year month : Z) : Z :=
  makeDay year (month + 1) 1 - makeDay year month 1.

End JsDate.

(** ** The calendars that render the event cards *)

Module EventCalendar.
Import EventListCardModals.

(** The organization record ([InterfaceIOrgList]), of which only the optional
    list of admin ids is read. *)
Record InterfaceIOrgList := mkOrgList { admins : option (list string) }.

(** [ids?.some((data) => data._id === userId)]. *)
Definition someId (ids : option (list string)) (userId : option string)
    : option bool :=
  existsb (fun id => bool_decide (Some id = userId)) <$> ids.

(** [data.push(event)]. *)
Definition push {A} (data : list A) (event : A) : list A :=
  (data ++ [event])%list.

(** The user is among the admins of the organization:
    [orgData?.admins?.some((data) => data._id === userId)], as a condition. *)
Definition isOrgAdmin (orgData : option InterfaceIOrgList)
    (userId : option string) : bool :=
  Js.truthyBool (orgData ≫= fun org => someId (admins org) userId).

Section FilterData.

(** The role tags [Role.SUPERADMIN] and [Role.ADMIN], declared in
    [types/Event/interface]. *)
Variable SUPERADMIN ADMIN : string.

(** The body of the [forEach] of the admin branch. *)
Definition adminStep (orgData : option InterfaceIOrgList)
    (userId : option string) (data : list InterfaceEventListCard)
    (event : InterfaceEventListCard) : list InterfaceEventListCard :=
  let data := if isPublic event then push data event else data in
  if negb (isPublic event) then
    if isOrgAdmin orgData userId then push data event else data
  else data.

(** The body of the [forEach] of the other branch. *)
Definition userStep (userId : option string)
    (data : list InterfaceEventListCard) (event : InterfaceEventListCard)
    : list InterfaceEventListCard :=
  let data := if isPublic event then push data event else data in
  let userAttending := someId (attendees event) userId in
  if Js.truthyBool userAttending then push data event else data.

(** [filterData], identical in the monthly and the yearly calendar. *)
Definition filterData (eventData : list InterfaceEventListCard)
    (orgData : option InterfaceIOrgList) (userRole userId : option string)
    : list InterfaceEventListCard :=
  if bool_decide (userRole = Some SUPERADMIN) then eventData
  else if bool_decide (userRole = Some ADMIN) then
    foldl (adminStep orgData userId) [] eventData
  else foldl (userStep userId) [] eventData.

End FilterData.

(** The props the calendars hand to the card of an event: the fields of the
    event, its attendees copied id by id into a fresh array (empty when the
    event has none), and the calendar's own [refetchEvents]. *)
Definition cardProps (refetchEvents : bool) (datas : InterfaceEventListCard)
    : InterfaceEventListCard :=
  {| _id := _id datas;
     title := title datas;
     description := description datas;
     location := location datas;
     startDate := startDate datas;
     endDate := endDate datas;
     startTime := startTime datas;
     endTime := endTime datas;
     allDay := allDay datas;
     recurring := recurring datas;
     isPublic := isPublic datas;
     isRegisterable := isRegisterable datas;
     recurrenceRule := recurrenceRule datas;
     attendees :=
       Some (match attendees datas with
             | Some l => foldl push [] l
             | None => []
             end);
     refetchEvents := refetchEvents |}.

(** The day, month (0-based) and year the monthly calendar shows. *)
Record View := mkView {
  currentDate : Z;
  currentMonth : Z;
  currentYear : Z;
}.

Definition handlePrevMonth (v : View) : View :=
  if currentMonth v =? 0 then mkView (currentDate v) 11 (currentYear v - 1)
  else mkView (currentDate v) (currentMonth v - 1) (currentYear v).

Definition handleNextMonth (v : View) : View :=
  if currentMonth v =? 11 then mkView (currentDate v) 0 (currentYear v + 1)
  else mkView (currentDate v) (currentMonth v + 1) (currentYear v).

Definition handlePrevDate (v : View) : View :=
  if 1 <? currentDate v then
    mkView (currentDate v - 1) (currentMonth v) (currentYear v)
  else if 0 <? currentMonth v then
    let lastDayOfPrevMonth :=
      JsDate.getDate (JsDate.newDate (currentYear v) (currentMonth v) 0) in
    mkView lastDayOfPrevMonth (currentMonth v - 1) (currentYear v)
  else mkView 31 11 (currentYear v - 1).

Definition handleNextDate (v : View) : View :=
  let lastDayOfCurrentMonth :=
    JsDate.getDate
      (JsDate.newDate (currentYear v) (currentMonth v - 1) 0) in
  if currentDate v <? lastDayOfCurrentMonth then
    mkView (currentDate v + 1) (currentMonth v) (currentYear v)
  else if currentMonth v <? 12 then
    mkView 1 (currentMonth v + 1) (currentYear v)
  else mkView 1 1 (currentYear v + 1).

Definition handleTodayButton (today : Js.Date) (v : View) : View :=
  mkView (JsDate.getDate today) (JsDate.getMonth today)
    (JsDate.getFullYear today).

(** A view shows a day of the calendar. *)
Definition validView (v : View) : Prop :=
  0 <= currentMonth v <= 11
  /\ 1 <= currentDate v
       <= JsDate.daysInMonth (currentYear v) (currentMonth v).

(** [toggleExpand]: the index of the expanded cell, [-1] when none is. *)
Definition toggleExpand (expanded index : Z) : Z :=
  if expanded =? index then -1 else index.

(** The [while] loop that collects the days from [currentDate] to
    [endDate], one step per unit of fuel. *)
Fixpoint collectDays (fuel : nat) (currentDate endDate : Js.Date)
    : option (list Js.Date) :=
  if JsDate.leb currentDate endDate then
    match fuel with
    | O => None
    | S fuel =>
        (currentDate ::.)
          <$> collectDays fuel
                (JsDate.newDate (JsDate.getFullYear currentDate)
                   (JsDate.getMonth currentDate)
                   (JsDate.getDate currentDate + 1))
                endDate
    end
  else Some [].

(** The days [renderDays] lays out for a month: from the Sunday on or before
    the first of the month to the Saturday on or after its last day. *)
Definition renderDays (fuel : nat) (currentYear currentMonth : Z)
    : option (list Js.Date) :=
  let monthStart := JsDate.newDate currentYear currentMonth 1 in
  let monthEnd := JsDate.newDate currentYear (currentMonth + 1) 0 in
  let startDate :=
    JsDate.newDate (JsDate.getFullYear monthStart)
      (JsDate.getMonth monthStart)
      (JsDate.getDate monthStart - Js.getDay monthStart) in
  let endDate :=
    JsDate.newDate (JsDate.getFullYear monthEnd) (JsDate.getMonth monthEnd)
      (JsDate.getDate monthEnd + (6 - Js.getDay monthEnd)) in
  collectDays fuel startDate endDate.

End EventCalendar.

Module YearlyEventCalender.

Definition handlePrevYear (currentYear : Z) : Z := currentYear - 1.
Definition handleNextYear (currentYear : Z) : Z := currentYear + 1.

(** The days [renderMonthDays] lays out for month [monthInx]: from the Monday
    on or before the first of the month to the Sunday on or after its last
    day. *)
Definition monthDays (fuel : nat) (currentYear monthInx : Z)
    : option (list Js.Date) :=
  let monthStart := JsDate.newDate currentYear monthInx 1 in
  let monthEnd := JsDate.newDate currentYear (monthInx + 1) 0 in
  let dayOfWeek := Js.getDay monthStart in
  let diff :=
    JsDate.getDate monthStart - dayOfWeek
    + (if dayOfWeek =? 0 then -6 else 1) in
  let startDate := JsDate.setDate monthStart diff in
  let endDayOfWeek := Js.getDay monthEnd in
  let diffEnd :=
    JsDate.getDate monthEnd + (7 - endDayOfWeek)
    - (if endDayOfWeek =? 0 then 7 else 0) in
  let endDate := JsDate.setDate monthEnd diffEnd in
  EventCalendar.collectDays fuel startDate endDate.

(** [renderMonthDays]: the twelve months of the year in order. *)
Definition renderMonthDays (fuel : nat) (currentYear : Z)
    : list (option (list Js.Date)) :=
  (fun monthInx => monthDays fuel currentYear monthInx) <$> seqZ 0 12.

End YearlyEventCalender.

(** ** Concrete calendar inputs *)

Module CalendarSample.
Import EventListCardModals.

(** A private event nobody attends. *)
Definition privateEvent : InterfaceEventListCard :=
  {| _id := "event2";
     title := "Board meeting";
     description := "Closed session";
     location := "Room 2";
     startDate := "2024-01-02";
     endDate := "2024-01-02";
     startTime := None;
     endTime := None;
     allDay := true;
     recurring := false;
     isPublic := false;
     isRegisterable := false;
     recurrenceRule := None;
     attendees := None;
     refetchEvents := false |}.

(** A public event attended by "user1", and a private one. *)
Definition events : list InterfaceEventListCard :=
  [Sample.event; privateEvent].

(** An organization administered by "user1". *)
Definition organization : EventCalendar.InterfaceIOrgList :=
  EventCalendar.mkOrgList (Some ["user1"]).

(** The modal opened on the sample event, the instance then moved to the
    8th of January and its rule set to every other week, one action at a
    time. *)
Definition rescheduled : State :=
  (Sample.sampleStep
     (Sample.sampleStep
        (Sample.sampleStep Sample.opened
           (SetEventStartDate (Sample.parseDate "2024-01-08"))).1
        (SetEventEndDate (Sample.parseDate "2024-01-08"))).1
     Sample.everyOtherWeek).1.

End CalendarSample.

(** * Properties *)

Import EventListCardModals.

(** ** Change detector (specification model) *)

Section ChangeDetector.
Import RecurrenceSpec.

Lemma sameComparableFields_refl r : sameComparableFields r r = true.
Proof.
  unfold sameComparableFields.
  by rewrite !bool_decide_eq_true_2.
Qed.

Lemma sameComparableFields_true a b :
  sameComparableFields a b = true <->
  frequency a = frequency b /\ interval a = interval b
  /\ weekDays a = weekDays b
  /\ recurrenceEndDate a = recurrenceEndDate b
  /\ count a = count b
  /\ weekDayOccurrenceInMonth a = weekDayOccurrenceInMonth b.
Proof.
  unfold sameComparableFields.
  rewrite !andb_true_iff, !bool_decide_eq_true. tauto.
Qed.

(** C5.  [haveInstanceDatesChanged] is true exactly when the start dates or
    the end dates fall on different calendar days, whatever their times of
    day; an edit that keeps both dates detects no change, and moving the
    start date alone, or the end date alone, to another day detects one. *)
Theorem haveInstanceDatesChanged_iff_day_differs
    (originalStart originalEnd editedStart editedEnd : Js.Date) :
  (haveInstanceDatesChanged originalStart originalEnd editedStart editedEnd
     = true
   <-> Js.calendar originalStart <> Js.calendar editedStart
       \/ Js.calendar originalEnd <> Js.calendar editedEnd)
  /\ haveInstanceDatesChanged originalStart originalEnd
       originalStart originalEnd = false
  /\ (Js.calendar originalStart <> Js.calendar editedStart ->
      haveInstanceDatesChanged originalStart originalEnd
        editedStart originalEnd = true)
  /\ (Js.calendar originalEnd <> Js.calendar editedEnd ->
      haveInstanceDatesChanged originalStart originalEnd
        originalStart editedEnd = true).
Proof.
  unfold haveInstanceDatesChanged. repeat split.
  - rewrite orb_true_iff, !negb_true_iff, !bool_decide_eq_false. tauto.
  - rewrite orb_true_iff, !negb_true_iff, !bool_decide_eq_false. tauto.
  - by rewrite !bool_decide_eq_true_2.
  - intros Hstart. by rewrite (bool_decide_eq_false_2 _ Hstart).
  - intros Hend. rewrite (bool_decide_eq_false_2 _ Hend).
    by rewrite orb_true_r.
Qed.

(** The time of day plays no part: two edits whose dates agree day by day
    are classified alike. *)
Lemma haveInstanceDatesChanged_ignores_time os oe es ee es' ee' :
  Js.calendar es = Js.calendar es' -> Js.calendar ee = Js.calendar ee' ->
  haveInstanceDatesChanged os oe es ee = haveInstanceDatesChanged os oe es' ee'.
Proof. unfold haveInstanceDatesChanged. by intros -> ->. Qed.

Example haveInstanceDatesChanged_other_time_of_day :
  haveInstanceDatesChanged
    (Js.mkDate (Js.mkCalendarDate 2024 1 1) 0)
    (Js.mkDate (Js.mkCalendarDate 2024 1 1) 0)
    (Js.mkDate (Js.mkCalendarDate 2024 1 1) 32400000)
    (Js.mkDate (Js.mkCalendarDate 2024 1 1) 36000000)
  = false.
Proof. reflexivity. Qed.

Example haveInstanceDatesChanged_moved_one_week :
  haveInstanceDatesChanged
    (Js.mkDate (Js.mkCalendarDate 2024 1 1) 0)
    (Js.mkDate (Js.mkCalendarDate 2024 1 1) 0)
    (Js.mkDate (Js.mkCalendarDate 2024 1 8) 0)
    (Js.mkDate (Js.mkCalendarDate 2024 1 8) 0)
  = true.
Proof. reflexivity. Qed.

(** C6.  [hasRecurrenceRuleChanged] reports no change between a rule and
    itself, reports a change whenever exactly one of the two rules is absent,
    and reports no change between two rules that agree on frequency, interval,
    weekday set, end date, count and occurrence in month, whatever their
    recurrence start dates. *)
Theorem hasRecurrenceRuleChanged_laws :
  (forall r, hasRecurrenceRuleChanged (Some r) (Some r) = false)
  /\ (forall r, hasRecurrenceRuleChanged None (Some r) = true
              /\ hasRecurrenceRuleChanged (Some r) None = true)
  /\ (forall a b,
        frequency a = frequency b ->
        interval a = interval b ->
        (forall d, d ∈ weekDays a <-> d ∈ weekDays b) ->
        recurrenceEndDate a = recurrenceEndDate b ->
        count a = count b ->
        weekDayOccurrenceInMonth a = weekDayOccurrenceInMonth b ->
        hasRecurrenceRuleChanged (Some a) (Some b) = false).
Proof.
  split; [|split].
  - intros r. cbn. by rewrite sameComparableFields_refl.
  - done.
  - intros a b Hf Hi Hw He Hc Ho. cbn. apply negb_false_iff.
    apply sameComparableFields_true.
    repeat split; try assumption. by apply set_eq.
Qed.

(** Two rules a month apart, holding the same weekdays built in another
    order. *)
Example hasRecurrenceRuleChanged_start_date_shift :
  hasRecurrenceRuleChanged
    (Some (mkRule (Js.mkCalendarDate 2024 1 1) None WEEKLY
             {[MONDAY; WEDNESDAY]} 2 (Some 3) None))
    (Some (mkRule (Js.mkCalendarDate 2024 2 5) None WEEKLY
             ({[WEDNESDAY]} ∪ {[MONDAY; MONDAY]}) 2 (Some 3) None))
  = false.
Proof. vm_compute. reflexivity. Qed.

(** Changing the frequency from weekly to monthly is a change of rule. *)
Example hasRecurrenceRuleChanged_frequency :
  hasRecurrenceRuleChanged
    (Some (mkRule (Js.mkCalendarDate 2024 1 1) None WEEKLY {[MONDAY]} 1 None None))
    (Some (mkRule (Js.mkCalendarDate 2024 1 1) None MONTHLY {[MONDAY]} 1 None None))
  = true.
Proof. vm_compute. reflexivity. Qed.

End ChangeDetector.

(** ** Recurrence text formatter (specification model) *)

Section Formatter.
Import RecurrenceSpec.

Example formatRule_weekly :
  formatRule
    (mkRule (Js.mkCalendarDate 2024 1 1) (Some (Js.mkCalendarDate 2024 12 31))
       WEEKLY {[MONDAY; WEDNESDAY]} 2 (Some 3) None)
  = "every 2 weeks on Mon, Wed until 2024-12-31".
Proof. vm_compute. reflexivity. Qed.

Example formatRule_monthly :
  formatRule
    (mkRule (Js.mkCalendarDate 2024 1 1) None MONTHLY {[TUESDAY]} 1 (Some 3)
       (Some 2))
  = "every 1 months on the 2nd Tuesday for 3 times".
Proof. vm_compute. reflexivity. Qed.

(** The end date takes precedence over the count. *)
Lemma terminationClause_end_date r e :
  recurrenceEndDate r = Some e ->
  terminationClause r = " until " +:+ Js.formatCalendar e.
Proof. unfold terminationClause. by intros ->. Qed.

(** The formatter never reads the recurrence start date, and reads the
    weekdays only through membership. *)
Lemma formatRule_ext r1 r2 :
  frequency r1 = frequency r2 ->
  interval r1 = interval r2 ->
  (forall d, d ∈ weekDays r1 <-> d ∈ weekDays r2) ->
  recurrenceEndDate r1 = recurrenceEndDate r2 ->
  count r1 = count r2 ->
  weekDayOccurrenceInMonth r1 = weekDayOccurrenceInMonth r2 ->
  formatRule r1 = formatRule r2.
Proof.
  intros Hf Hi Hw%set_eq He Hc Ho.
  unfold formatRule, intervalClause, weekDaysClause, occurrenceClause,
    terminationClause, weekDayList.
  by rewrite Hf, Hi, Hw, He, Hc, Ho.
Qed.

End Formatter.

(** ** Edit-scope selector *)

Section ScopeSelector.

Lemma scopeEffect_flags st : changeFlags (scopeEffect st) = changeFlags st.
Proof.
  destruct st as [? ? ? ? ? ? ? ? ? ? ? ? ? ? rule dates ?].
  unfold scopeEffect; cbn. by destruct rule, dates.
Qed.

(** The scope effect overwrites the selected scope, the options and the
    modal's visibility with values determined by the two flags alone; the
    decision they make up is the row of the table for those flags. *)
Lemma scopeEffect_decision st :
  decisionOf (scopeEffect st)
  = deriveScopeOptions_spec (instanceDatesChanged st)
      (recurrenceRuleChanged st).
Proof.
  destruct st as [? ? ? ? ? ? ? ? ? ? ? ? ? ? rule dates ?].
  unfold scopeEffect; cbn. by destruct rule, dates.
Qed.

Lemma scopeEffect_agrees st : scopeAgrees (changeFlags st) (scopeEffect st).
Proof.
  destruct st as [? ? ? ? ? ? ? ? ? ? ? ? ? ? rule dates ?].
  unfold scopeAgrees, scopeEffect, changeFlags; cbn.
  destruct rule, dates; cbn; repeat split; repeat constructor.
Qed.

Lemma recompute_flags datesChanged ruleChanged st :
  changeFlags (recompute datesChanged ruleChanged st)
  = (datesChanged, ruleChanged).
Proof. unfold recompute. rewrite scopeEffect_flags. by destruct st. Qed.

(** C1.  Recomputing the decision yields, for each of the four flag pairs,
    the row of the table of section 4.3: the scopes on offer, the selected
    scope and whether a choice is required.  When both flags are set the
    update modal is not shown and the one scope on offer is
    THIS_AND_FOLLOWING; the list left in [recurringEventUpdateOptions] by the
    rule-changed branch is not read. *)
Theorem recompute_decision_table (datesChanged ruleChanged : bool)
    (st : State) :
  decisionOf (recompute datesChanged ruleChanged st)
    = deriveScopeOptions_spec datesChanged ruleChanged
  /\ decisionOf (recompute true true st)
     = mkDecision [thisAndFollowingInstances] thisAndFollowingInstances false
  /\ recurringEventUpdateOptions (recompute true true st)
     = [thisAndFollowingInstances; allInstances].
Proof.
  unfold recompute. rewrite !scopeEffect_decision.
  split; [by destruct st |]. split; [by destruct st |].
  destruct st. unfold scopeEffect. reflexivity.
Qed.

(** The scopes on offer are never empty, and the selected one is among
    them whenever it is among the stored options. *)
Lemma offeredScopes_selected st :
  recurringEventUpdateType st ∈ recurringEventUpdateOptions st ->
  recurringEventUpdateType st ∈ offeredScopes st.
Proof.
  unfold offeredScopes. destruct (shouldShowRecurringEventUpdateOptions st);
    [done | intros _; constructor].
Qed.

(** Running the component: move the instance by a week, then change the
    interval of the rule. *)
Example run_both_changed :
  decisionOf Sample.bothChanged
  = mkDecision [thisAndFollowingInstances] thisAndFollowingInstances false.
Proof. vm_compute. reflexivity. Qed.

(** Moving the instance alone leaves THIS_INSTANCE and THIS_AND_FOLLOWING. *)
Example run_dates_changed :
  decisionOf (Sample.sampleRun Sample.opened Sample.movedOneWeek).1
  = mkDecision [thisInstance; thisAndFollowingInstances] thisInstance true.
Proof. vm_compute. reflexivity. Qed.

(** Changing the frequency alone leaves THIS_AND_FOLLOWING and ALL_INSTANCES. *)
Example run_rule_changed :
  decisionOf (Sample.sampleRun Sample.opened [Sample.monthly]).1
  = mkDecision [thisAndFollowingInstances; allInstances]
      thisAndFollowingInstances true.
Proof. vm_compute. reflexivity. Qed.

(** *** The decision along the runs of the component *)

Section Runs.

Variable haveInstanceDatesChanged : string -> string -> string -> string -> bool.
Variable hasRecurrenceRuleChanged : option Rule.t -> RuleState.t -> bool.
Variable newDate : string -> Js.Date.
Variable t : string -> string.
Variable eventListCardProps : InterfaceEventListCard.
Variable userId : option string.

Local Abbreviation perform := (perform newDate t eventListCardProps).
Local Abbreviation detectEffect :=
  (detectEffect haveInstanceDatesChanged hasRecurrenceRuleChanged
     eventListCardProps).
Local Abbreviation rerender :=
  (rerender haveInstanceDatesChanged hasRecurrenceRuleChanged
     eventListCardProps).
Local Abbreviation step :=
  (step haveInstanceDatesChanged hasRecurrenceRuleChanged newDate t
     eventListCardProps).
Local Abbreviation run :=
  (run haveInstanceDatesChanged hasRecurrenceRuleChanged newDate t
     eventListCardProps).
Local Abbreviation mount :=
  (mount haveInstanceDatesChanged hasRecurrenceRuleChanged newDate
     eventListCardProps userId).
Local Abbreviation reachable :=
  (reachable haveInstanceDatesChanged hasRecurrenceRuleChanged newDate t
     eventListCardProps userId).

Ltac split_state st :=
  destruct st as [? ? ? ? ? ? ? ? ? ? ? ? ? show ? ? registered].

(** Setters, handlers and the modal-open effect leave the options and the
    modal's visibility alone; only the scope setter touches the selected
    scope, and the modal offers nothing but the stored options. *)
Lemma perform_scopeAgrees flags st a :
  scopeAgrees flags st -> offered st a -> scopeAgrees flags (perform a st).1.
Proof.
  unfold scopeAgrees. intros (Hopts & Hshow & Hin) Hoffered.
  destruct a as [[] | | | | | | | | | | | [] | [] | [] | [] | |];
    split_state st; cbn in *;
    unfold openEffect, handleEventUpdate, registerEventHandler; cbn;
    repeat case_match; cbn; auto.
Qed.

Lemma detectEffect_scopeAgrees flags st :
  scopeAgrees flags st -> scopeAgrees flags (detectEffect st).
Proof. by split_state st. Qed.

Lemma rerender_scopeAgrees assigned previous st :
  scopeAgrees (changeFlags previous) st ->
  scopeAgrees (changeFlags (rerender assigned previous st))
    (rerender assigned previous st).
Proof.
  intros Hagrees. unfold EventListCardModals.rerender.
  case_bool_decide as Hflags.
  - rewrite Hflags. destruct assigned; [| done].
    by apply detectEffect_scopeAgrees.
  - rewrite scopeEffect_flags. apply scopeEffect_agrees.
Qed.

Lemma mount_scopeAgrees eventModalIsOpen :
  scopeAgrees (changeFlags (mount eventModalIsOpen)) (mount eventModalIsOpen).
Proof.
  apply rerender_scopeAgrees.
  apply (perform_scopeAgrees _ _ (ModalOpened eventModalIsOpen)); [| done].
  rewrite <- scopeEffect_flags. apply scopeEffect_agrees.
Qed.

(** Opening the modal of an event that has a stored rule loads that rule into
    the form, recurrence start date included. *)
Lemma mount_loads_stored_rule recurrenceRule :
  EventListCardModals.recurrenceRule eventListCardProps = Some recurrenceRule ->
  recurrenceRuleState (mount true) = ruleStateOfRule newDate recurrenceRule.
Proof.
  intros Hrule. unfold EventListCardModals.mount, EventListCardModals.rerender.
  unfold openEffect. rewrite Hrule.
  case_bool_decide; [done |]. unfold scopeEffect; cbn. by repeat case_match.
Qed.

(** Mounting, running the component and recomputing the decision all end
    in a state whose options and visibility are those of its flags. *)
Lemma recompute_scopeAgrees datesChanged ruleChanged st :
  scopeAgrees (changeFlags (recompute datesChanged ruleChanged st))
    (recompute datesChanged ruleChanged st).
Proof.
  unfold recompute. rewrite scopeEffect_flags. apply scopeEffect_agrees.
Qed.

Lemma step_scopeAgrees st a :
  scopeAgrees (changeFlags st) st -> offered st a ->
  scopeAgrees (changeFlags (step st a).1) (step st a).1.
Proof.
  intros Hagrees Hoffered. unfold EventListCardModals.step.
  pose proof (perform_scopeAgrees _ _ _ Hagrees Hoffered) as Hperformed.
  destruct (perform a st) as [st1 calls]. cbn in *.
  by apply rerender_scopeAgrees.
Qed.

(** In every reachable state the options and the modal's visibility are those
    the current flags call for, and the selected scope is one of the
    options. *)
Lemma reachable_scopeAgrees st :
  reachable st -> scopeAgrees (changeFlags st) st.
Proof.
  induction 1 as [eventModalIsOpen | st a _ IH Hoffered].
  - apply mount_scopeAgrees.
  - by apply step_scopeAgrees.
Qed.

Lemma reachable_choice_iff_not_both st :
  reachable st ->
  (shouldShowRecurringEventUpdateOptions st = false
   <-> instanceDatesChanged st = true /\ recurrenceRuleChanged st = true)
  /\ (2 <= length (recurringEventUpdateOptions st))%nat.
Proof.
  intros Hreach. destruct (reachable_scopeAgrees _ Hreach) as (-> & -> & _).
  unfold changeFlags, showsOptionsFor, optionsFor; cbn.
  destruct (instanceDatesChanged st), (recurrenceRuleChanged st); cbn;
    split; try lia; split; intros; try done; by destruct_and?.
Qed.

(** C2 (as amended).  In every state the component reaches, and in every
    state left by a recomputation of the decision, a choice is required
    exactly when more than one scope is on offer.  On submitting a recurring
    event the update modal is opened, and nothing is sent, exactly when a
    choice is required; otherwise exactly one scope is on offer and the
    update mutation is invoked at once; its variables carry that scope when
    the form's recurring box is checked.  After a recomputation the scope
    inferred this way is THIS_AND_FOLLOWING. *)
Theorem confirmation_iff_choice_required
    (st : State) (outcome : MutationOutcome) :
  recurring eventListCardProps = true ->
  (reachable st
   \/ exists datesChanged ruleChanged st0,
        st = recompute datesChanged ruleChanged st0) ->
  let decision := decisionOf st in
  let submit := handleEventUpdate t eventListCardProps st outcome in
  (requiresUserChoice decision = true
   <-> (1 < length (availableScopes decision))%nat)
  /\ (requiresUserChoice decision = true ->
      submit = (setRecurringEventUpdateModalIsOpen true st, []))
  /\ (requiresUserChoice decision = false ->
      availableScopes decision = [defaultScope decision]
      /\ submit = updateEventHandler t eventListCardProps st outcome
      /\ (exists calls,
            submit.2
            = UpdateEvent (updateVariables eventListCardProps st) :: calls)
      /\ (recurringchecked st = true ->
          Vars.recurringEventUpdateType
            (updateVariables eventListCardProps st)
          = Some (defaultScope decision))
      /\ (forall datesChanged ruleChanged st0,
            st = recompute datesChanged ruleChanged st0 ->
            defaultScope decision = thisAndFollowingInstances)).
Proof.
  intros Hrecurring Hstate. cbn zeta.
  assert (scopeAgrees (changeFlags st) st) as (Hopts & Hshow & _).
  { destruct Hstate as [Hreach | (d & r & st0 & ->)];
      [by apply reachable_scopeAgrees | apply recompute_scopeAgrees]. }
  unfold handleEventUpdate, decisionOf, offeredScopes.
  cbn [requiresUserChoice availableScopes defaultScope].
  rewrite Hrecurring. cbn [negb].
  destruct (shouldShowRecurringEventUpdateOptions st) eqn:Hshown.
  - split; [| split; [done | done]].
    rewrite Hopts. unfold optionsFor, changeFlags.
    destruct (instanceDatesChanged st), (recurrenceRuleChanged st); cbn;
      split; intros; (done || lia).
  - split; [cbn; split; intros; (done || lia) |].
    split; [done |]. intros _.
    split; [done |]. split; [done |].
    split; [destruct outcome; cbn; eauto |].
    split; [unfold updateVariables; cbn; by intros -> |].
    intros d r st0 ->. rewrite recompute_flags in Hshow.
    unfold showsOptionsFor in Hshow. cbn in Hshow.
    pose proof (scopeEffect_decision
                  (setRecurrenceRuleChanged r
                     (setInstanceDatesChanged d st0))) as Hd.
    apply (f_equal defaultScope) in Hd. unfold recompute.
    cbn [decisionOf defaultScope] in Hd. rewrite Hd.
    destruct st0, d, r; cbn in *; done.
Qed.

End Runs.

(** C2 (as stated) fails for the scope of a direct submission: on a recurring
    event whose recurring box was unchecked before the dates and the rule
    were changed, no choice is required and the update mutation is invoked at
    once, but its variables carry no scope. *)
Lemma unchecked_box_submits_without_scope :
  let st := Sample.uncheckedBothChanged in
  recurring Sample.event = true
  /\ requiresUserChoice (decisionOf st) = false
  /\ defaultScope (decisionOf st) = thisAndFollowingInstances
  /\ (handleEventUpdate Sample.translate Sample.event st Data).2
     = [UpdateEvent (updateVariables Sample.event st);
        ToastSuccess "eventUpdated"; HideViewModal; RefetchEvents]
  /\ Vars.recurringEventUpdateType (updateVariables Sample.event st)
     <> Some (defaultScope (decisionOf st)).
Proof. vm_compute. repeat split. discriminate. Qed.

Lemma confirmation_iff_choice_required_witness :
  let st := recompute true true Sample.opened in
  requiresUserChoice (decisionOf st) = false
  /\ (handleEventUpdate Sample.translate Sample.event st Data).2
     = [UpdateEvent (updateVariables Sample.event st);
        ToastSuccess "eventUpdated"; HideViewModal; RefetchEvents]
  /\ Vars.recurringEventUpdateType (updateVariables Sample.event st)
     = Some thisAndFollowingInstances.
Proof.
  pose proof
    (confirmation_iff_choice_required Sample.haveInstanceDatesChanged
       Sample.hasRecurrenceRuleChanged Sample.parseDate Sample.translate
       Sample.event Sample.userId (recompute true true Sample.opened) Data
       eq_refl
       (or_intror
          (ex_intro _ true
             (ex_intro _ true (ex_intro _ Sample.opened eq_refl)))))
    as (_ & _ & Hdirect).
  destruct (Hdirect eq_refl) as (_ & -> & _ & Hscope & Hinferred).
  split; [reflexivity |]. split; [reflexivity |].
  rewrite (Hscope eq_refl), (Hinferred true true Sample.opened eq_refl).
  reflexivity.
Defined.

Lemma optionsFor_nonempty flags : optionsFor flags <> [].
Proof. by destruct flags as [[] []]. Qed.

(** C4.  In the initial state, in the state of an edit session just opened,
    and after every run of the scope effect, the selected scope is one of the
    stored options, and the options are not empty. *)
Theorem default_scope_among_options
    (haveInstanceDatesChanged : string -> string -> string -> string -> bool)
    (hasRecurrenceRuleChanged : option Rule.t -> RuleState.t -> bool)
    (newDate : string -> Js.Date)
    (eventListCardProps : InterfaceEventListCard) (userId : option string) :
  let initial := initialState newDate eventListCardProps userId in
  let opened :=
    mount haveInstanceDatesChanged hasRecurrenceRuleChanged newDate
      eventListCardProps userId true in
  (recurringEventUpdateType initial ∈ recurringEventUpdateOptions initial
   /\ recurringEventUpdateOptions initial <> [])
  /\ (recurringEventUpdateType opened ∈ recurringEventUpdateOptions opened
     /\ recurringEventUpdateOptions opened <> [])
  /\ (forall st,
        recurringEventUpdateType (scopeEffect st)
          ∈ recurringEventUpdateOptions (scopeEffect st)
        /\ recurringEventUpdateOptions (scopeEffect st) <> []).
Proof.
  cbn zeta. split; [| split].
  - cbn. split; [repeat constructor | done].
  - destruct (mount_scopeAgrees haveInstanceDatesChanged
                hasRecurrenceRuleChanged newDate id eventListCardProps userId
                true) as (Hopts & _ & Hin).
    split; [done |]. rewrite Hopts. apply optionsFor_nonempty.
  - intros st. destruct (scopeEffect_agrees st) as (Hopts & _ & Hin).
    split; [done |]. rewrite Hopts. apply optionsFor_nonempty.
Qed.

End ScopeSelector.

(** ** The variables of the update mutation *)

Section UpdateVariables.

Variable haveInstanceDatesChanged : string -> string -> string -> string -> bool.
Variable hasRecurrenceRuleChanged : option Rule.t -> RuleState.t -> bool.
Variable newDate : string -> Js.Date.
Variable t : string -> string.
Variable eventListCardProps : InterfaceEventListCard.
Variable userId : option string.

Local Abbreviation updateVariables := (updateVariables eventListCardProps).
Local Abbreviation updateEventHandler :=
  (updateEventHandler t eventListCardProps).
Local Abbreviation handleEventUpdate :=
  (handleEventUpdate t eventListCardProps).
Local Abbreviation step :=
  (step haveInstanceDatesChanged hasRecurrenceRuleChanged newDate t
     eventListCardProps).
Local Abbreviation run :=
  (run haveInstanceDatesChanged hasRecurrenceRuleChanged newDate t
     eventListCardProps).
Local Abbreviation mount :=
  (mount haveInstanceDatesChanged hasRecurrenceRuleChanged newDate
     eventListCardProps userId).

(** Every update call a submission makes carries [updateVariables] of the
    state it was submitted from. *)
Lemma updateEventHandler_variables st outcome variables :
  UpdateEvent variables ∈ (updateEventHandler st outcome).2 ->
  variables = updateVariables st.
Proof.
  unfold EventListCardModals.updateEventHandler, afterSuccess.
  destruct outcome, (refetchEvents eventListCardProps); cbn; intros Hin;
    repeat (apply elem_of_cons in Hin as [Hin | Hin]; [congruence |]);
    by apply elem_of_nil in Hin.
Qed.

Lemma updateEventHandler_calls_update st outcome :
  UpdateEvent (updateVariables st) ∈ (updateEventHandler st outcome).2.
Proof. destruct outcome; cbn; constructor. Qed.

Lemma handleEventUpdate_variables st outcome variables :
  UpdateEvent variables ∈ (handleEventUpdate st outcome).2 ->
  variables = updateVariables st.
Proof.
  unfold EventListCardModals.handleEventUpdate.
  repeat case_match; try apply updateEventHandler_variables.
  cbn. by rewrite elem_of_nil.
Qed.

(** The date-only rendering ignores the time of day. *)
Lemma format_YYYY_MM_DD_date_only d1 d2 :
  Js.calendar d1 = Js.calendar d2 ->
  Js.format_YYYY_MM_DD d1 = Js.format_YYYY_MM_DD d2.
Proof. unfold Js.format_YYYY_MM_DD. by intros ->. Qed.

(** The calls of a step are those of the action performed. *)
Lemma step_calls st a :
  (step st a).2 = (perform newDate t eventListCardProps a st).2.
Proof.
  unfold EventListCardModals.step.
  by destruct (perform newDate t eventListCardProps a st).
Qed.

(** Whatever the action, an update call it makes carries
    [updateVariables] of the state the action was taken in. *)
Lemma step_update_variables st a variables :
  UpdateEvent variables ∈ (step st a).2 -> variables = updateVariables st.
Proof.
  rewrite step_calls.
  destruct a; cbn [perform snd];
    try (by intros ?%elem_of_nil);
    try apply handleEventUpdate_variables;
    try apply updateEventHandler_variables.
  - unfold deleteEventHandler, afterSuccess.
    destruct outcome, (refetchEvents eventListCardProps); cbn; intros Hin;
      repeat (apply elem_of_cons in Hin as [Hin | Hin]; [done |]);
      by apply elem_of_nil in Hin.
  - unfold registerEventHandler.
    destruct (negb _), outcome; cbn; intros Hin;
      repeat (apply elem_of_cons in Hin as [Hin | Hin]; [done |]);
      by apply elem_of_nil in Hin.
Qed.

(** The recurrence start date of the form's rule is the stored one from the
    moment the modal is opened for as long as no rule with another start
    date is put into the form. *)
Lemma step_keeps_recurrenceStartDate stored st a :
  recurrenceRule eventListCardProps = Some stored ->
  RuleState.recurrenceStartDate (recurrenceRuleState st)
    = newDate (Rule.recurrenceStartDate stored) ->
  keepsRecurrenceStartDate (newDate (Rule.recurrenceStartDate stored)) a ->
  RuleState.recurrenceStartDate (recurrenceRuleState (step st a).1)
  = newDate (Rule.recurrenceStartDate stored).
Proof.
  intros Hstored Hstart Hkeeps. unfold EventListCardModals.step.
  destruct (perform newDate t eventListCardProps a st) as [st1 calls] eqn:Hp.
  cbn [fst].
  assert (RuleState.recurrenceStartDate (recurrenceRuleState st1)
          = newDate (Rule.recurrenceStartDate stored)) as Hstart1.
  { destruct a as [[] | | | | | | | | | | | [] | [] | [] | [] | |];
      destruct st; cbn in *;
      unfold openEffect, handleEventUpdate, registerEventHandler in Hp;
      rewrite ?Hstored in Hp; cbn in Hp;
      repeat case_match; by simplify_eq. }
  unfold rerender. destruct (assignsDependency _ _), st1; cbn in *;
    case_bool_decide; try done; unfold scopeEffect; cbn;
    by repeat case_match.
Qed.

Lemma run_cons_state st a actions :
  (run st (a :: actions)).1 = (run (step st a).1 actions).1.
Proof.
  cbn [EventListCardModals.run]. destruct (step st a) as [st1 calls1].
  cbn [fst]. by destruct (run st1 actions).
Qed.

Lemma run_keeps_recurrenceStartDate stored st actions :
  recurrenceRule eventListCardProps = Some stored ->
  RuleState.recurrenceStartDate (recurrenceRuleState st)
    = newDate (Rule.recurrenceStartDate stored) ->
  Forall (keepsRecurrenceStartDate (newDate (Rule.recurrenceStartDate stored)))
    actions ->
  RuleState.recurrenceStartDate (recurrenceRuleState (run st actions).1)
  = newDate (Rule.recurrenceStartDate stored).
Proof.
  intros Hstored Hstart Hkeep. revert st Hstart.
  induction Hkeep as [| a rest Ha _ IH]; intros st Hstart; [done |].
  rewrite run_cons_state. apply IH.
  by apply step_keeps_recurrenceStartDate.
Qed.

(** C3 (as amended).  The [recurring] variable of a submitted update is the
    form's recurring box.  With the box checked, the [recurrenceStartDate]
    variable is the date-only rendering of the edited instance's start date
    when the selected scope is THIS_AND_FOLLOWING and a date or the rule has
    changed, and the date-only rendering of the recurrence start date held in
    the form's rule state in every other case; with the box unchecked it is
    undefined.  The date held is the series' stored one from the moment the
    modal is opened for as long as no rule with another start date is put
    into the form. *)
Theorem recurrenceStartDate_of_submission st a variables :
  UpdateEvent variables ∈ (step st a).2 ->
  let edited := Js.format_YYYY_MM_DD (eventStartDate st) in
  let held :=
    Js.format_YYYY_MM_DD
      (RuleState.recurrenceStartDate (recurrenceRuleState st)) in
  let split :=
    recurringEventUpdateType st = thisAndFollowingInstances
    /\ (instanceDatesChanged st = true \/ recurrenceRuleChanged st = true) in
  Vars.recurring variables = recurringchecked st
  /\ (recurringchecked st = true -> split ->
      Vars.recurrenceStartDate variables = Some edited)
  /\ (recurringchecked st = true -> ~ split ->
      Vars.recurrenceStartDate variables = Some held)
  /\ (recurringchecked st = false ->
      Vars.recurrenceStartDate variables = None)
  /\ (forall stored opened actions,
        recurrenceRule eventListCardProps = Some stored ->
        (opened = mount true
         \/ exists st0, opened = (step st0 (ModalOpened true)).1) ->
        st = (run opened actions).1 ->
        Forall
          (keepsRecurrenceStartDate
             (newDate (Rule.recurrenceStartDate stored))) actions ->
        held
        = Js.format_YYYY_MM_DD (newDate (Rule.recurrenceStartDate stored))).
Proof.
  intros ->%step_update_variables. cbn zeta.
  unfold EventListCardModals.updateVariables.
  cbn [Vars.recurrenceStartDate Vars.recurring].
  split; [done |]. split; [| split; [| split]].
  - intros -> [-> Hchanged]. rewrite bool_decide_eq_true_2 by done.
    by destruct Hchanged as [-> | ->]; rewrite ?orb_true_r.
  - intros -> Hnot. case_bool_decide as Hscope; [| done].
    destruct (instanceDatesChanged st) eqn:?, (recurrenceRuleChanged st) eqn:?;
      cbn; try done; exfalso; apply Hnot; auto.
  - by intros ->.
  - intros stored opened actions Hstored Hopened -> Hkeep. f_equal.
    apply run_keeps_recurrenceStartDate; [done | | done].
    destruct Hopened as [-> | [st0 ->]].
    + by rewrite (mount_loads_stored_rule _ _ _ _ _ stored).
    + unfold EventListCardModals.step, perform, openEffect.
      rewrite Hstored. cbn [fst]. unfold rerender.
      destruct (assignsDependency _ _), st0; cbn;
        case_bool_decide; try done; unfold scopeEffect; cbn;
        by repeat case_match.
Qed.

(** C8 (as amended).  In an update submitted with the recurring flag unset,
    the eight recurrence variables are all undefined; title, description,
    location and the four check boxes come from the form unchanged, the two
    dates are the date-only renderings of the form's dates, and the two times
    are the form's times unless the all-day box is checked, in which case they
    are undefined. *)
Theorem non_recurring_submission st outcome variables :
  UpdateEvent variables ∈ (updateEventHandler st outcome).2 ->
  Vars.recurring variables = false ->
  (Vars.recurringEventUpdateType variables = None
   /\ Vars.recurrenceStartDate variables = None
   /\ Vars.recurrenceEndDate variables = None
   /\ Vars.frequency variables = None
   /\ Vars.weekDays variables = None
   /\ Vars.interval variables = None
   /\ Vars.count variables = None
   /\ Vars.weekDayOccurenceInMonth variables = None)
  /\ (Vars.title variables = Form.title (formState st)
     /\ Vars.description variables = Form.eventdescrip (formState st)
     /\ Vars.location variables = Form.location (formState st)
     /\ Vars.isPublic variables = publicchecked st
     /\ Vars.isRegisterable variables = registrablechecked st
     /\ Vars.allDay variables = alldaychecked st
     /\ Vars.startDate variables = Js.format_YYYY_MM_DD (eventStartDate st)
     /\ Vars.endDate variables = Js.format_YYYY_MM_DD (eventEndDate st))
  /\ (Vars.allDay variables = false ->
     Vars.startTime variables = Some (Form.startTime (formState st))
     /\ Vars.endTime variables = Some (Form.endTime (formState st)))
  /\ (Vars.allDay variables = true ->
     Vars.startTime variables = None /\ Vars.endTime variables = None).
Proof.
  intros ->%updateEventHandler_variables. cbn. intros ->. cbn.
  split; [done |]. split; [done |]. split; by intros ->.
Qed.

(** C9.  In an update submitted as recurring, that is with the form's
    recurring box checked, the [weekDays] variable is the rule state's
    weekday list when the frequency is WEEKLY, or when it is MONTHLY and
    [weekDayOccurenceInMonth] is set; in every other case it is undefined,
    whatever the weekday list holds.  (With the box unchecked it is always
    undefined.)  An occurrence number counts the weeks of a month and is
    not 0. *)
Theorem weekDays_of_submission st a variables :
  UpdateEvent variables ∈ (step st a).2 ->
  RuleState.weekDayOccurenceInMonth (recurrenceRuleState st) <> Some 0 ->
  let rule := recurrenceRuleState st in
  let included :=
    RuleState.frequency rule = WEEKLY
    \/ (RuleState.frequency rule = MONTHLY
        /\ is_Some (RuleState.weekDayOccurenceInMonth rule)) in
  Vars.recurring variables = recurringchecked st
  /\ (recurringchecked st = true -> included ->
      Vars.weekDays variables = Some (RuleState.weekDays rule))
  /\ (recurringchecked st = true -> ~ included ->
      Vars.weekDays variables = None)
  /\ (recurringchecked st = false -> Vars.weekDays variables = None).
Proof.
  intros ->%step_update_variables. cbn zeta.
  unfold EventListCardModals.updateVariables.
  cbn [Vars.weekDays Vars.recurring].
  destruct (recurrenceRuleState st) as [? ? frequency weekDays ? ? occurrence].
  cbn. intros Hnonzero. split; [done |]. split; [| split].
  - intros -> [-> | [-> [n ->]]]; [done |]. cbn.
    rewrite (proj2 (Z.eqb_neq n 0)); [done | congruence].
  - intros -> Hnot. destruct frequency; try done.
    + exfalso. apply Hnot. by left.
    + destruct occurrence as [n |]; [| done].
      exfalso. apply Hnot. right. eauto.
  - by intros ->.
Qed.

End UpdateVariables.

(** C8 (as stated) fails for the times: with the all-day box checked the
    start time is undefined although the form holds one. *)
Lemma all_day_submission_drops_times :
  Vars.recurring (updateVariables Sample.event Sample.allDaySubmission) = false
  /\ Form.startTime (formState Sample.allDaySubmission) = "09:00:00"
  /\ Vars.startTime (updateVariables Sample.event Sample.allDaySubmission)
     <> Some (Form.startTime (formState Sample.allDaySubmission)).
Proof. repeat split. discriminate. Qed.

Lemma non_recurring_submission_witness :
  Vars.title (updateVariables Sample.event Sample.allDaySubmission)
    = "Weekly sync"
  /\ Vars.weekDays (updateVariables Sample.event Sample.allDaySubmission)
     = None
  /\ Vars.startTime (updateVariables Sample.event Sample.allDaySubmission)
     = None.
Proof.
  destruct
    (non_recurring_submission Sample.translate Sample.event
       Sample.allDaySubmission Data
       (updateVariables Sample.event Sample.allDaySubmission))
    as (Hrecurrence & Hform & _ & Htimes).
  - cbn. constructor.
  - reflexivity.
  - split; [apply Hform |].
    split; [apply Hrecurrence | apply Htimes; reflexivity].
Defined.

(** Weekly, monthly on the second Tuesday, and yearly with a weekday list
    left in the form. *)
Lemma weekDays_of_submission_witness :
  Vars.weekDays (updateVariables Sample.event Sample.opened) = Some [MONDAY]
  /\ Vars.weekDays
       (updateVariables Sample.event Sample.secondTuesdaySubmission)
     = Some [TUESDAY]
  /\ RuleState.weekDays (recurrenceRuleState Sample.yearlySubmission)
     = [MONDAY]
  /\ Vars.weekDays (updateVariables Sample.event Sample.yearlySubmission)
     = None.
Proof.
  pose proof
    (fun st Hin Hnonzero =>
       weekDays_of_submission Sample.haveInstanceDatesChanged
         Sample.hasRecurrenceRuleChanged Sample.parseDate Sample.translate
         Sample.event st (UpdateEventHandler Data)
         (updateVariables Sample.event st) Hin Hnonzero)
    as Hsubmission.
  split; [| split; [| split; [vm_compute; reflexivity |]]].
  - destruct (Hsubmission Sample.opened) as (_ & Hincluded & _);
      [vm_compute; constructor | vm_compute; discriminate |].
    rewrite Hincluded; [vm_compute; reflexivity | vm_compute; reflexivity |].
    left. vm_compute. reflexivity.
  - destruct (Hsubmission Sample.secondTuesdaySubmission)
      as (_ & Hincluded & _);
      [vm_compute; constructor | vm_compute; discriminate |].
    rewrite Hincluded; [vm_compute; reflexivity | vm_compute; reflexivity |].
    right. split; [vm_compute; reflexivity | vm_compute; by eexists].
  - destruct (Hsubmission Sample.yearlySubmission) as (_ & _ & Hexcluded & _);
      [vm_compute; constructor | vm_compute; discriminate |].
    apply Hexcluded; [vm_compute; reflexivity |].
    intros [Hweekly | [Hmonthly _]];
      [vm_compute in Hweekly | vm_compute in Hmonthly]; discriminate.
Defined.

(** C3 (as stated) fails for the stored date: the form was given a rule that
    differs from the stored one in its start date only, so neither flag is
    set and the scope is THIS_INSTANCE, and the submission carries the
    form's 2024-02-05, not the series' stored 2023-12-04.  It also fails on
    the recurring event whose recurring box was unchecked before its dates
    and rule were changed: the scope is THIS_AND_FOLLOWING and the dates
    have changed, yet no recurrence start date is submitted. *)
Lemma recurrenceStartDate_not_the_stored_one :
  (let st := Sample.startReplaced in
   recurring Sample.event = true
   /\ recurringchecked st = true
   /\ changeFlags st = (false, false)
   /\ recurringEventUpdateType st = thisInstance
   /\ Rule.recurrenceStartDate <$> recurrenceRule Sample.event
      = Some "2023-12-04"
   /\ Vars.recurrenceStartDate (updateVariables Sample.event st)
      = Some "2024-02-05")
  /\ (let st := Sample.uncheckedBothChanged in
      recurring Sample.event = true
      /\ recurringEventUpdateType st = thisAndFollowingInstances
      /\ instanceDatesChanged st = true
      /\ Js.format_YYYY_MM_DD (eventStartDate st) = "2024-01-08"
      /\ Vars.recurrenceStartDate (updateVariables Sample.event st) = None).
Proof. vm_compute. repeat split. Qed.

(** Both the dates and the interval are changed: the submitted recurrence
    start date is the edited start date, not the series' 2023-12-04.  In the
    session just opened it is the stored one, and with the recurring box
    unchecked there is none. *)
Lemma recurrenceStartDate_of_submission_witness :
  Vars.recurrenceStartDate
    (updateVariables Sample.event Sample.bothChanged)
  = Some "2024-01-08"
  /\ Vars.recurrenceStartDate (updateVariables Sample.event Sample.opened)
     = Some "2023-12-04"
  /\ Vars.recurrenceStartDate
       (updateVariables Sample.event Sample.uncheckedBothChanged)
     = None.
Proof.
  pose proof
    (fun st Hin =>
       recurrenceStartDate_of_submission Sample.haveInstanceDatesChanged
         Sample.hasRecurrenceRuleChanged Sample.parseDate Sample.translate
         Sample.event Sample.userId st (UpdateEventHandler Data)
         (updateVariables Sample.event st) Hin)
    as Hsubmission.
  split; [| split].
  - destruct (Hsubmission Sample.bothChanged) as (_ & Hsplit & _);
      [vm_compute; constructor |].
    rewrite Hsplit; [reflexivity | reflexivity |].
    split; [reflexivity | left; reflexivity].
  - destruct (Hsubmission Sample.opened) as (_ & _ & Hheld & _ & Hstored);
      [vm_compute; constructor |].
    rewrite Hheld; [| reflexivity | intros [Hscope _]; discriminate].
    apply (f_equal Some).
    transitivity
      (Js.format_YYYY_MM_DD
         (Sample.parseDate (Rule.recurrenceStartDate Sample.weeklyRule)));
      [| vm_compute; reflexivity].
    apply (Hstored Sample.weeklyRule Sample.opened []);
      [reflexivity | left; reflexivity
      | cbn [EventListCardModals.run fst]; reflexivity | constructor].
  - destruct (Hsubmission Sample.uncheckedBothChanged) as (_ & _ & _ & Hnone & _);
      [vm_compute; constructor |].
    apply Hnone. reflexivity.
Defined.

(** ** Registration *)

Section Registration.

Variable haveInstanceDatesChanged : string -> string -> string -> string -> bool.
Variable hasRecurrenceRuleChanged : option Rule.t -> RuleState.t -> bool.
Variable newDate : string -> Js.Date.
Variable t : string -> string.
Variable eventListCardProps : InterfaceEventListCard.
Variable userId : option string.

Local Abbreviation registerEventHandler :=
  (registerEventHandler eventListCardProps).
Local Abbreviation step :=
  (step haveInstanceDatesChanged hasRecurrenceRuleChanged newDate t
     eventListCardProps).
Local Abbreviation run :=
  (run haveInstanceDatesChanged hasRecurrenceRuleChanged newDate t
     eventListCardProps).
Local Abbreviation initialState :=
  (initialState newDate eventListCardProps userId).

(** The user starts out registered exactly when the stored user id is among
    the attendees of the event. *)
Lemma initially_registered_iff :
  isRegistered initialState = Some true
  <-> exists attendees,
        EventListCardModals.attendees eventListCardProps = Some attendees
        /\ exists attendee, attendee ∈ attendees /\ Some attendee = userId.
Proof.
  cbn. unfold isInitiallyRegistered.
  destruct (EventListCardModals.attendees eventListCardProps) as [l |]; cbn.
  - split.
    + intros [= Hsome]. exists l. split; [done |].
      apply existsb_exists in Hsome as (a & Hin & Ha).
      exists a. split; [by apply list_elem_of_In | by apply bool_decide_eq_true in Ha].
    + intros (l' & [= <-] & a & Hin & Ha). f_equal.
      apply existsb_exists. exists a.
      split; [by apply list_elem_of_In | by apply bool_decide_eq_true_2].
  - split; [done | by intros (? & ? & _)].
Qed.

(** A registration that returns data marks the user as registered. *)
Lemma registerEventHandler_success st :
  Js.truthyBool (isRegistered st) = false ->
  isRegistered (registerEventHandler st Data).1 = Some true
  /\ RegisterEvent (_id eventListCardProps) ∈ (registerEventHandler st Data).2.
Proof.
  intros Hnot. unfold EventListCardModals.registerEventHandler.
  rewrite Hnot. cbn. split; [by destruct st | constructor].
Qed.

Lemma step_keeps_registered st a :
  isRegistered st = Some true -> isRegistered (step st a).1 = Some true.
Proof.
  intros Hreg. unfold EventListCardModals.step.
  destruct (perform newDate t eventListCardProps a st) as [st1 calls] eqn:Hp.
  cbn. assert (isRegistered st1 = Some true) as Hreg1.
  { destruct a as [[] | | | | | | | | | | | [] | [] | [] | [] | |];
      destruct st; cbn in *; subst;
      unfold openEffect, handleEventUpdate in Hp; cbn in Hp;
      repeat case_match; by simplify_eq. }
  unfold rerender. destruct (assignsDependency _ _), st1; cbn in *;
    case_bool_decide; try done; unfold scopeEffect; cbn;
    by repeat case_match.
Qed.

Lemma step_no_register_call st a :
  isRegistered st = Some true -> Forall (fun c => ~ isRegisterCall c) (step st a).2.
Proof.
  intros Hreg. unfold EventListCardModals.step.
  destruct (perform newDate t eventListCardProps a st) as [st1 calls] eqn:Hp.
  cbn.
  destruct a as [[] | | | | | | | | | | | [] | [] | [] | [] | |];
    destruct st; cbn in *; subst;
    unfold handleEventUpdate, updateEventHandler, deleteEventHandler,
      afterSuccess in Hp;
    cbn in Hp; repeat case_match; simplify_eq; repeat constructor; auto.
Qed.

(** C10.  While [isRegistered] is true the register handler invokes nothing
    and returns the state it was given; and since nothing ever resets the
    flag, no later action of the session, whatever the run, invokes the
    register mutation. *)
Theorem registered_user_never_registers_again st :
  isRegistered st = Some true ->
  (forall outcome, registerEventHandler st outcome = (st, []))
  /\ (forall actions,
        isRegistered (run st actions).1 = Some true
        /\ Forall (fun c => ~ isRegisterCall c) (run st actions).2).
Proof.
  intros Hreg. split.
  - intros outcome. unfold EventListCardModals.registerEventHandler.
    by rewrite Hreg.
  - intros actions. revert st Hreg.
    induction actions as [| a rest IH]; intros st Hreg; cbn; [done |].
    pose proof (step_keeps_registered st a Hreg) as Hnext.
    pose proof (step_no_register_call st a Hreg) as Hcalls.
    destruct (step st a) as [st1 calls1]. cbn in *.
    destruct (IH st1 Hnext) as [Hfinal Hrest].
    destruct (run st1 rest) as [st2 calls2]. cbn in *.
    split; [done | by apply Forall_app].
Qed.

End Registration.

(** The sample user is among the attendees: clicking "register", also after
    other actions, sends nothing. *)
Lemma registered_user_never_registers_again_witness :
  registerEventHandler Sample.event Sample.opened Data = (Sample.opened, [])
  /\ (Sample.sampleRun Sample.opened
        [RegisterEventHandler Data; SetAllDayChecked true;
         RegisterEventHandler Rejected]).2 = [].
Proof.
  pose proof
    (registered_user_never_registers_again Sample.haveInstanceDatesChanged
       Sample.hasRecurrenceRuleChanged Sample.parseDate Sample.translate
       Sample.event Sample.opened eq_refl) as [Hnoop _].
  split; [apply Hnoop | reflexivity].
Defined.

(** A user who is not among the attendees does reach the mutation. *)
Example unregistered_user_registers :
  (registerEventHandler Sample.event
     (setIsRegistered (Some false) Sample.opened) Data).2
  = [RegisterEvent "event1";
     ToastSuccess "Successfully registered for Weekly sync"; HideViewModal].
Proof. reflexivity. Qed.

(** ** More on the modals component *)

Section Modals.

Variable haveInstanceDatesChanged : string -> string -> string -> string -> bool.
Variable hasRecurrenceRuleChanged : option Rule.t -> RuleState.t -> bool.
Variable newDate : string -> Js.Date.
Variable t : string -> string.
Variable eventListCardProps : InterfaceEventListCard.
Variable userId : option string.

Local Abbreviation detectEffect :=
  (detectEffect haveInstanceDatesChanged hasRecurrenceRuleChanged
     eventListCardProps).
Local Abbreviation rerender :=
  (rerender haveInstanceDatesChanged hasRecurrenceRuleChanged
     eventListCardProps).
Local Abbreviation step :=
  (step haveInstanceDatesChanged hasRecurrenceRuleChanged newDate t
     eventListCardProps).
Local Abbreviation run :=
  (run haveInstanceDatesChanged hasRecurrenceRuleChanged newDate t
     eventListCardProps).
Local Abbreviation mount :=
  (mount haveInstanceDatesChanged hasRecurrenceRuleChanged newDate
     eventListCardProps userId).
Local Abbreviation reachable :=
  (reachable haveInstanceDatesChanged hasRecurrenceRuleChanged newDate t
     eventListCardProps userId).
Local Abbreviation updateEventHandler :=
  (updateEventHandler t eventListCardProps).
Local Abbreviation deleteEventHandler :=
  (deleteEventHandler t eventListCardProps).
Local Abbreviation registerEventHandler :=
  (registerEventHandler eventListCardProps).
Local Abbreviation flagsFresh :=
  (flagsFresh haveInstanceDatesChanged hasRecurrenceRuleChanged
     eventListCardProps).
Local Abbreviation sessionStep :=
  (sessionStep haveInstanceDatesChanged hasRecurrenceRuleChanged newDate t
     eventListCardProps).
Local Abbreviation sessionRun :=
  (sessionRun haveInstanceDatesChanged hasRecurrenceRuleChanged newDate t
     eventListCardProps).

(** The four [if] statements of the scope effect collapse to three
    assignments determined by the flags. *)
Lemma scopeEffect_assigns st :
  scopeEffect st
  = setShouldShowRecurringEventUpdateOptions
      (showsOptionsFor (changeFlags st))
      (setRecurringEventUpdateOptions (optionsFor (changeFlags st))
         (setRecurringEventUpdateType (defaultFor (changeFlags st)) st)).
Proof.
  destruct st as [? ? ? ? ? ? ? ? ? ? ? ? ? ? rule dates ?].
  unfold scopeEffect; cbn. by destruct rule, dates.
Qed.

(** X3.  The scope effect changes nothing but the selected scope, the options
    and the visibility of the update modal; it overwrites whatever scope was
    selected before, and running it twice is running it once. *)
Theorem scopeEffect_frame_idempotent (st : State) :
  scopeEffect (scopeEffect st) = scopeEffect st
  /\ (forall type options show,
        scopeEffect
          (setShouldShowRecurringEventUpdateOptions show
             (setRecurringEventUpdateOptions options
                (setRecurringEventUpdateType type st)))
        = scopeEffect st)
  /\ exists type options show,
       scopeEffect st
       = setShouldShowRecurringEventUpdateOptions show
           (setRecurringEventUpdateOptions options
              (setRecurringEventUpdateType type st)).
Proof.
  split; [| split].
  - rewrite (scopeEffect_assigns (scopeEffect st)), scopeEffect_flags.
    rewrite (scopeEffect_assigns st). by destruct st.
  - intros type options show. rewrite !scopeEffect_assigns. by destruct st.
  - rewrite scopeEffect_assigns. eauto.
Qed.

(** The change-detection effect makes the flags fresh; the scope effect
    reads them and writes neither them nor what they are computed from. *)
Lemma detectEffect_fresh st : flagsFresh (detectEffect st).
Proof. by destruct st. Qed.

Lemma scopeEffect_fresh st : flagsFresh st -> flagsFresh (scopeEffect st).
Proof. rewrite scopeEffect_assigns. by destruct st. Qed.

(** An action that assigns none of the three dependencies leaves them and
    the flags as they were, under whatever props it is performed; no effect
    runs after it, so the step is the action alone. *)
Lemma perform_keeps_dependencies props st a :
  assignsDependency props a = false ->
  let st1 := (perform newDate t props a st).1 in
  eventStartDate st1 = eventStartDate st
  /\ eventEndDate st1 = eventEndDate st
  /\ recurrenceRuleState st1 = recurrenceRuleState st
  /\ changeFlags st1 = changeFlags st.
Proof.
  destruct a as [[] | | | | | | | | | | | [] | [] | [] | [] | |];
    destruct st; cbn; try done;
    unfold openEffect, handleEventUpdate, registerEventHandler; cbn;
    repeat case_match; cbn in *; try done.
  all: by exfalso; eauto.
Qed.

Lemma step_without_assignment props st a :
  assignsDependency props a = false ->
  (EventListCardModals.step haveInstanceDatesChanged hasRecurrenceRuleChanged
     newDate t props st a).1
  = (perform newDate t props a st).1.
Proof.
  intros Hno. unfold EventListCardModals.step.
  destruct (perform_keeps_dependencies props st a Hno) as (_ & _ & _ & Hflags).
  destruct (perform newDate t props a st) as [st1 calls]. cbn [fst] in *.
  unfold EventListCardModals.rerender. rewrite Hno.
  by rewrite bool_decide_eq_true_2.
Qed.

Lemma step_fresh st a : flagsFresh st -> flagsFresh (step st a).1.
Proof.
  intros Hfresh.
  destruct (assignsDependency eventListCardProps a) eqn:Hassigned.
  - unfold EventListCardModals.step.
    destruct (perform newDate t eventListCardProps a st) as [st1 calls].
    cbn [fst]. unfold EventListCardModals.rerender. rewrite Hassigned.
    case_bool_decide; [| apply scopeEffect_fresh]; apply detectEffect_fresh.
  - rewrite step_without_assignment by done.
    destruct (perform_keeps_dependencies eventListCardProps st a Hassigned)
      as (Hstart & Hend & Hrule & Hflags).
    unfold flagsFresh in *. rewrite Hstart, Hend, Hrule.
    injection Hflags as -> ->. done.
Qed.

Lemma mount_fresh eventModalIsOpen : flagsFresh (mount eventModalIsOpen).
Proof.
  unfold EventListCardModals.mount, EventListCardModals.rerender.
  case_bool_decide; [| apply scopeEffect_fresh]; apply detectEffect_fresh.
Qed.

(** X2.  While the props stay the same, the two change flags are in every
    reachable state the values the change detectors return on the dates and
    the rule the form holds at that moment.  The props are not among the
    dependencies of the effect that computes them: an action performed under
    other props that assigns neither date nor the rule leaves the flags as
    they were. *)
Theorem reachable_flags_fresh (st : State) :
  reachable st ->
  (instanceDatesChanged st
   = haveInstanceDatesChanged
       (startDate eventListCardProps) (endDate eventListCardProps)
       (Js.format_YYYY_MM_DD (eventStartDate st))
       (Js.format_YYYY_MM_DD (eventEndDate st))
   /\ recurrenceRuleChanged st
      = hasRecurrenceRuleChanged (recurrenceRule eventListCardProps)
          (recurrenceRuleState st))
  /\ (forall (refreshed : InterfaceEventListCard) (a : Action),
        assignsDependency refreshed a = false ->
        changeFlags
          (EventListCardModals.step haveInstanceDatesChanged
             hasRecurrenceRuleChanged newDate t refreshed st a).1
        = changeFlags st).
Proof.
  intros Hreach. split.
  - induction Hreach as [eventModalIsOpen | st a _ IH _].
    + apply mount_fresh.
    + by apply step_fresh.
  - intros refreshed a Hno. rewrite step_without_assignment by done.
    by destruct (perform_keeps_dependencies refreshed st a Hno)
      as (_ & _ & _ & Hflags).
Qed.

(** X1.  In every reachable state, the update modal choosing only among the
    options it is given, the stored options and the visibility of the modal
    are those the current flags call for, and the selected scope is one of
    the stored options. *)
Theorem reachable_scope_consistent (st : State) :
  reachable st ->
  recurringEventUpdateOptions st = optionsFor (changeFlags st)
  /\ shouldShowRecurringEventUpdateOptions st
     = showsOptionsFor (changeFlags st)
  /\ recurringEventUpdateType st ∈ recurringEventUpdateOptions st.
Proof. apply reachable_scopeAgrees. Qed.

(** X4.  When the awaited mutation yields no data or is rejected, the update,
    delete and register handlers leave the state as it was and make no call
    besides the mutation itself, followed by the error handler exactly when
    the mutation was rejected. *)
Theorem handlers_without_data (st : State) (outcome : MutationOutcome) :
  outcome <> Data ->
  let failure :=
    match outcome with Rejected => [ErrorHandler] | _ => [] end in
  updateEventHandler st outcome
    = (st, UpdateEvent (updateVariables eventListCardProps st) :: failure)
  /\ deleteEventHandler st outcome
     = (st,
        DeleteEvent (_id eventListCardProps)
          (if recurring eventListCardProps
           then Some (recurringEventDeleteType st) else None) :: failure)
  /\ (Js.truthyBool (isRegistered st) = false ->
      registerEventHandler st outcome
      = (st, RegisterEvent (_id eventListCardProps) :: failure)).
Proof.
  intros Hno. unfold EventListCardModals.registerEventHandler.
  destruct outcome; [done | |]; cbn; repeat split; by intros ->.
Qed.

Lemma rerender_isRegistered assigned previous st :
  isRegistered (rerender assigned previous st) = isRegistered st.
Proof.
  unfold EventListCardModals.rerender.
  destruct assigned; case_bool_decide; rewrite ?scopeEffect_assigns;
    by destruct st.
Qed.

(** X6.  On mounting, the user counts as registered exactly when the stored
    user id is the id of one of the attendees of the event, and the flag is
    undefined exactly when the event carries no list of attendees.  As long
    as the flag is not true, a click on "register" invokes the register
    mutation on the id of the event before anything else. *)
Theorem starts_registered_iff_attendee (eventModalIsOpen : bool) :
  let st := mount eventModalIsOpen in
  (isRegistered st = Some true
   <-> exists attendees attendee,
         EventListCardModals.attendees eventListCardProps = Some attendees
         /\ attendee ∈ attendees /\ userId = Some attendee)
  /\ (isRegistered st = None
      <-> EventListCardModals.attendees eventListCardProps = None)
  /\ (forall outcome,
        isRegistered st <> Some true ->
        exists calls,
          (registerEventHandler st outcome).2
          = RegisterEvent (_id eventListCardProps) :: calls).
Proof.
  cbn zeta.
  assert (isRegistered (mount eventModalIsOpen)
          = isInitiallyRegistered eventListCardProps userId) as Hmount.
  { unfold EventListCardModals.mount. rewrite rerender_isRegistered.
    unfold openEffect. rewrite scopeEffect_assigns.
    by repeat case_match. }
  rewrite Hmount. unfold isInitiallyRegistered. split; [| split].
  - destruct (EventListCardModals.attendees eventListCardProps) as [l |];
      cbn; [| split; [done | by intros (? & ? & ? & _)]].
    split.
    + intros [= Hsome].
      apply existsb_exists in Hsome as (attendee & Hin & Hid).
      exists l, attendee. apply bool_decide_eq_true in Hid.
      apply list_elem_of_In in Hin. done.
    + intros (? & attendee & [= <-] & Hin & ->). f_equal.
      apply existsb_exists. exists attendee.
      split; [by apply list_elem_of_In | by apply bool_decide_eq_true_2].
  - by destruct (EventListCardModals.attendees eventListCardProps).
  - intros outcome Hnot. unfold EventListCardModals.registerEventHandler.
    rewrite Hmount. unfold isInitiallyRegistered.
    destruct (existsb _ <$> _) as [[] |]; [done | |];
      destruct outcome; cbn; eauto.
Qed.

(** Once the flag is true, no event of a session invokes the register
    mutation or resets the flag. *)
Lemma sessionStep_registered st inFlight e :
  isRegistered st = Some true ->
  isRegistered (sessionStep (st, inFlight) e).1.1 = Some true
  /\ Forall (fun c => ~ isRegisterCall c) (sessionStep (st, inFlight) e).2.
Proof.
  intros Hreg. destruct e as [| outcome | a]; cbn [EventListCardModals.sessionStep].
  - unfold registerEventRequest. rewrite Hreg. cbn. by split.
  - destruct inFlight as [| others]; [by split |].
    destruct outcome; cbn; rewrite rerender_isRegistered;
      (split; [by destruct st | repeat constructor; auto]).
  - pose proof (step_keeps_registered haveInstanceDatesChanged
                  hasRecurrenceRuleChanged newDate t eventListCardProps st a
                  Hreg) as Hnext.
    pose proof (step_no_register_call haveInstanceDatesChanged
                  hasRecurrenceRuleChanged newDate t eventListCardProps st a
                  Hreg) as Hcalls.
    by destruct (step st a).
Qed.

Lemma sessionRun_registered st inFlight events :
  isRegistered st = Some true ->
  isRegistered (sessionRun (st, inFlight) events).1.1 = Some true
  /\ Forall (fun c => ~ isRegisterCall c) (sessionRun (st, inFlight) events).2.
Proof.
  revert st inFlight.
  induction events as [| e rest IH]; intros st inFlight Hreg;
    cbn [EventListCardModals.sessionRun]; [by split |].
  destruct (sessionStep_registered st inFlight e Hreg) as [Hnext Hcalls].
  destruct (sessionStep (st, inFlight) e) as [[st1 inFlight1] calls1].
  cbn [fst snd] in *.
  destruct (IH st1 inFlight1 Hnext) as [Hfinal Hrest].
  destruct (sessionRun (st1, inFlight1) rest) as [session2 calls2].
  cbn [fst snd] in *. split; [done | by apply Forall_app].
Qed.

(** X5.  The register handler tests [isRegistered] before its [await] and the
    flag is set only when a request settles with data.  Run without anything
    in between, the two halves are the handler.  While the flag is not true
    every click invokes the mutation, so the clicks made before the first
    response send one request each; a request settling with data sets the
    flag, and from then on no click and no other action invokes the
    mutation. *)
Theorem register_requests_in_flight (st : State) (inFlight : nat) :
  (forall outcome,
     registerEventHandler st outcome
     = if negb (Js.truthyBool (isRegistered st))
       then ((registerEventSettled eventListCardProps outcome st).1,
             (registerEventRequest eventListCardProps st
              ++ (registerEventSettled eventListCardProps outcome st).2)%list)
       else (st, []))
  /\ (isRegistered st <> Some true ->
      forall clicks,
        sessionRun (st, inFlight) (repeat RegisterClicked clicks)
        = ((st, (inFlight + clicks)%nat),
           repeat (RegisterEvent (_id eventListCardProps)) clicks))
  /\ isRegistered
       (sessionStep (st, S inFlight) (RegisterSettled Data)).1.1 = Some true
  /\ (forall outcome,
        outcome <> Data ->
        isRegistered
          (sessionStep (st, S inFlight) (RegisterSettled outcome)).1.1
        = isRegistered st)
  /\ (isRegistered st = Some true ->
      forall events,
        isRegistered (sessionRun (st, inFlight) events).1.1 = Some true
        /\ Forall (fun c => ~ isRegisterCall c)
             (sessionRun (st, inFlight) events).2).
Proof.
  split; [| split; [| split; [| split]]].
  - intros outcome. unfold EventListCardModals.registerEventHandler,
      registerEventRequest.
    destruct (negb _); [| done]. by destruct outcome.
  - intros Hnot clicks. revert inFlight.
    induction clicks as [| clicks IH]; intros inFlight;
      cbn [repeat EventListCardModals.sessionRun].
    + by rewrite Nat.add_0_r.
    + cbn [EventListCardModals.sessionStep]. unfold registerEventRequest.
      assert (Js.truthyBool (isRegistered st) = false) as ->
        by (by destruct (isRegistered st) as [[] |]).
      cbn [negb length]. rewrite IH. cbn [app].
      by replace (inFlight + 1 + clicks)%nat
        with (inFlight + S clicks)%nat by lia.
  - cbn. rewrite rerender_isRegistered. by destruct st.
  - intros outcome Hnot. destruct outcome; [done | |]; cbn;
      by rewrite rerender_isRegistered.
  - intros Hreg events. by apply sessionRun_registered.
Qed.

(** X7.  Opening the modal of an event that has a stored rule loads that rule
    into the form: frequency, weekdays, interval, count and occurrence are
    copied, the start date is parsed, and the end date is parsed unless the
    stored one is null or the empty string, in which case the form has none.
    When the modal is closed, or the event has no rule, the form keeps the
    weekly default built on the start date of the event. *)
Theorem open_modal_loads_rule (eventModalIsOpen : bool) :
  let form := recurrenceRuleState (mount eventModalIsOpen) in
  (forall stored,
     eventModalIsOpen = true ->
     recurrenceRule eventListCardProps = Some stored ->
     RuleState.recurrenceStartDate form
       = newDate (Rule.recurrenceStartDate stored)
     /\ RuleState.frequency form = Rule.frequency stored
     /\ RuleState.weekDays form = Rule.weekDays stored
     /\ RuleState.interval form = Rule.interval stored
     /\ RuleState.count form = Rule.count stored
     /\ RuleState.weekDayOccurenceInMonth form
        = Rule.weekDayOccurenceInMonth stored
     /\ RuleState.recurrenceEndDate form
        = match Rule.recurrenceEndDate stored with
          | None => None
          | Some date => if decide (date = "") then None
                         else Some (newDate date)
          end)
  /\ (eventModalIsOpen = false \/ recurrenceRule eventListCardProps = None ->
      form
      = initialRecurrenceRuleState
          (newDate (startDate eventListCardProps))).
Proof.
  cbn zeta.
  assert (forall st,
            recurrenceRuleState
              (rerender true (initialState newDate eventListCardProps userId)
                 st)
            = recurrenceRuleState st) as Hkeep.
  { intros st. unfold EventListCardModals.rerender. case_bool_decide.
    - by destruct st.
    - rewrite scopeEffect_assigns. by destruct st. }
  unfold EventListCardModals.mount. rewrite Hkeep. split.
  - intros stored -> Hstored. unfold openEffect. rewrite Hstored. cbn.
    repeat split. destruct (Rule.recurrenceEndDate stored) as [date |]; cbn;
      [| done].
    destruct (String.eqb_spec date ""); by case_decide.
  - unfold openEffect. intros [-> | ->]; [done |]. by destruct eventModalIsOpen.
Qed.

End Modals.

Section Initial.

(** [split('.')[0]] is the part before the first dot: it holds no dot, and
    what follows it is empty or starts with a dot.  These two facts
    determine it. *)
Lemma beforeDot_no_dot s :
  "."%char ∉ list_ascii_of_string (beforeDot s).
Proof.
  induction s as [| c s IH]; cbn; [apply not_elem_of_nil |].
  destruct (Ascii.eqb_spec c "."); cbn; [apply not_elem_of_nil |].
  rewrite not_elem_of_cons. by split.
Qed.

Lemma beforeDot_split s :
  exists rest,
    s = beforeDot s +:+ rest
    /\ (rest = "" \/ exists tail, rest = "." +:+ tail).
Proof.
  induction s as [| c s (rest & IH & Hrest)]; cbn.
  - exists "". by split; [| left].
  - destruct (Ascii.eqb_spec c ".") as [-> | Hc].
    + exists (String "." s). split; [done | right; by exists s].
    + exists rest. split; [| done].
      change (String c s = String c (beforeDot s +:+ rest)). by f_equal.
Qed.

Lemma beforeDot_app first rest :
  ("."%char ∉ list_ascii_of_string first) ->
  (rest = "" \/ exists tail, rest = "." +:+ tail) ->
  beforeDot (first +:+ rest) = first.
Proof.
  intros Hfirst Hrest. induction first as [| c first IH].
  - by destruct Hrest as [-> | [tail ->]].
  - cbn in Hfirst. rewrite not_elem_of_cons in Hfirst.
    destruct Hfirst as [Hc Hfirst].
    change (beforeDot (String c (first +:+ rest)) = String c first). cbn.
    destruct (Ascii.eqb_spec c "."); [congruence |]. by rewrite IH.
Qed.

(** X9.  The time put into the form is the stored time up to its first dot:
    a stored time splits into a part without a dot and a rest that is empty
    or starts with a dot, and for every such split the form's time is the
    first part, or "08:00:00" when that part is empty.  It is "08:00:00"
    when no time is stored.  Hence it is never empty and never contains a
    dot. *)
Theorem timeOrDefault_shape (time : option string) :
  (time = None -> timeOrDefault time = "08:00:00")
  /\ (forall s,
        time = Some s ->
        exists first rest,
          s = first +:+ rest
          /\ ("."%char ∉ list_ascii_of_string first)
          /\ (rest = "" \/ exists tail, rest = "." +:+ tail))
  /\ (forall s first rest,
        time = Some s ->
        s = first +:+ rest ->
        ("."%char ∉ list_ascii_of_string first) ->
        (rest = "" \/ exists tail, rest = "." +:+ tail) ->
        timeOrDefault time
        = if decide (first = "") then "08:00:00" else first)
  /\ timeOrDefault time <> ""
  /\ ("."%char ∉ list_ascii_of_string (timeOrDefault time)).
Proof.
  assert ("."%char ∉ list_ascii_of_string "08:00:00") as Hdefault.
  { cbn. rewrite !not_elem_of_cons. repeat split; try done.
    apply not_elem_of_nil. }
  split; [by intros -> |]. split; [| split].
  - intros s _. destruct (beforeDot_split s) as (rest & Hs & Hrest).
    exists (beforeDot s), rest. split; [done |].
    split; [apply beforeDot_no_dot | done].
  - intros s first rest -> -> Hfirst Hrest. unfold timeOrDefault.
    rewrite beforeDot_app by done.
    destruct (String.eqb_spec first ""); by case_decide.
  - unfold timeOrDefault. destruct time as [s |]; [| done].
    destruct (String.eqb_spec (beforeDot s) ""); [done |].
    split; [done | apply beforeDot_no_dot].
Qed.

End Initial.

(** ** Event filtering of the calendars *)

Section EventFiltering.
Import EventCalendar.

Variable SUPERADMIN ADMIN : string.

Local Abbreviation filterData := (filterData SUPERADMIN ADMIN).

(** The user attends the event: the id is among the attendees. *)
Lemma someId_true ids userId :
  Js.truthyBool (someId ids userId) = true
  <-> exists l id, ids = Some l /\ id ∈ l /\ Some id = userId.
Proof.
  unfold someId. destruct ids as [l |]; cbn.
  - destruct (existsb _ l) eqn:Hex.
    + apply existsb_exists in Hex as (id & Hin%list_elem_of_In & Hid).
      apply bool_decide_eq_true in Hid. split; [eauto 6 | done].
    + split; [done |]. intros (l' & id & [= <-] & Hin & Hid).
      assert (existsb (fun id => bool_decide (Some id = userId)) l = true)
        as Hyes; [| congruence].
      apply existsb_exists. exists id.
      split; [by apply list_elem_of_In | by apply bool_decide_eq_true].
  - split; [done | by intros (? & ? & ? & _)].
Qed.

Lemma foldl_adminStep orgData userId data eventData :
  foldl (adminStep orgData userId) data eventData
  = (data ++ filter (fun event => isPublic event || isOrgAdmin orgData userId)
               eventData)%list.
Proof.
  revert data. induction eventData as [| event rest IH]; intros data.
  - cbn. by rewrite app_nil_r.
  - cbn [foldl]. rewrite IH, filter_cons. unfold adminStep, push.
    destruct (isPublic event), (isOrgAdmin orgData userId); cbn;
      by rewrite <- ?app_assoc.
Qed.

Lemma foldl_userStep userId data eventData :
  foldl (userStep userId) data eventData
  = (data ++ (eventData ≫= fun event =>
                (if isPublic event then [event] else [])
                ++ (if Js.truthyBool (someId (attendees event) userId)
                    then [event] else [])))%list.
Proof.
  revert data. induction eventData as [| event rest IH]; intros data.
  - cbn. by rewrite app_nil_r.
  - cbn [foldl mbind list_bind]. rewrite IH. unfold userStep, push.
    destruct (isPublic event), (Js.truthyBool _); cbn;
      by rewrite <- ?app_assoc.
Qed.

(** X10.  [filterData] never invents an event: whatever the role, every event
    it returns is one of the events it was given; a super admin gets the
    list unchanged. *)
Theorem filterData_returns_given_events
    (eventData : list InterfaceEventListCard)
    (orgData : option InterfaceIOrgList) (userRole userId : option string) :
  (forall event,
     event ∈ filterData eventData orgData userRole userId ->
     event ∈ eventData)
  /\ filterData eventData orgData (Some SUPERADMIN) userId = eventData.
Proof.
  split.
  - intros event. unfold EventCalendar.filterData.
    repeat case_bool_decide; [done | |].
    + rewrite foldl_adminStep. cbn. by intros [_ Hin]%list_elem_of_filter.
    + rewrite foldl_userStep. cbn.
      intros (e & Hin & He)%list_elem_of_bind.
      destruct (isPublic e), (Js.truthyBool _); cbn in Hin;
        rewrite ?elem_of_cons, ?elem_of_nil in Hin;
        destruct_or?; subst; done.
  - unfold EventCalendar.filterData. by rewrite bool_decide_eq_true_2.
Qed.

(** X11.  For an admin, [filterData] keeps the order of the events and drops
    nothing but private events, and those only when the user is not among
    the admins of the organization: an organization admin gets every event,
    any other admin exactly the public ones. *)
Theorem filterData_admin
    (eventData : list InterfaceEventListCard)
    (orgData : option InterfaceIOrgList) (userId : option string) :
  ADMIN <> SUPERADMIN ->
  filterData eventData orgData (Some ADMIN) userId
  = (if isOrgAdmin orgData userId then eventData
     else filter (fun event => isPublic event) eventData)
  /\ (isOrgAdmin orgData userId = true
      <-> exists org ids id,
            orgData = Some org /\ admins org = Some ids
            /\ id ∈ ids /\ Some id = userId).
Proof.
  intros Hroles. split.
  - unfold EventCalendar.filterData.
    rewrite bool_decide_eq_false_2 by congruence.
    rewrite bool_decide_eq_true_2 by done.
    rewrite foldl_adminStep. cbn.
    destruct (isOrgAdmin orgData userId).
    + induction eventData as [| e l IH]; [done |].
      rewrite filter_cons_True by (by rewrite orb_true_r). by rewrite IH.
    + apply list_filter_iff. intros e. by rewrite orb_false_r.
  - unfold isOrgAdmin. destruct orgData as [org |]; cbn.
    + rewrite someId_true. split.
      * intros (ids & id & Hids & Hin & Hid). by exists org, ids, id.
      * intros (org' & ids & id & [= <-] & Hids & Hin & Hid).
        by exists ids, id.
    + split; [done | by intros (? & ? & ? & ? & _)].
Qed.

(** X12.  For any other role, an event is returned exactly when it was given
    and is public or attended by the user: no private event reaches a user
    who does not attend it, and no public or attended event is lost. *)
Theorem filterData_user_membership
    (eventData : list InterfaceEventListCard)
    (orgData : option InterfaceIOrgList) (userRole userId : option string)
    (event : InterfaceEventListCard) :
  userRole <> Some SUPERADMIN -> userRole <> Some ADMIN ->
  event ∈ filterData eventData orgData userRole userId
  <-> event ∈ eventData
      /\ (isPublic event = true
          \/ exists ids id,
               attendees event = Some ids /\ id ∈ ids /\ Some id = userId).
Proof.
  intros Hsuper Hadmin. unfold EventCalendar.filterData.
  rewrite !bool_decide_eq_false_2 by done.
  rewrite foldl_userStep. cbn. rewrite list_elem_of_bind.
  setoid_rewrite <- someId_true. split.
  - intros (e & Hin & He).
    destruct (isPublic e) eqn:Hpub, (Js.truthyBool _) eqn:Hatt; cbn in Hin;
      rewrite ?elem_of_cons, ?elem_of_nil in Hin;
      destruct_or?; subst; try done; split; auto.
  - intros (Hin & Hwhy). exists event. split; [| done].
    destruct Hwhy as [-> | ->]; [| destruct (isPublic event)]; cbn;
      rewrite ?elem_of_cons; auto.
Qed.

(** X13.  For any other role, the result lists each event once if it is public
    and once more if the user attends it, in the order of the input; an
    event that is public and attended by the user is therefore listed
    twice. *)
Theorem filterData_user_listing
    (eventData : list InterfaceEventListCard)
    (orgData : option InterfaceIOrgList) (userRole userId : option string) :
  userRole <> Some SUPERADMIN -> userRole <> Some ADMIN ->
  let attending event := Js.truthyBool (someId (attendees event) userId) in
  filterData eventData orgData userRole userId
  = (eventData ≫= fun event =>
       (if isPublic event then [event] else [])
       ++ (if attending event then [event] else []))%list
  /\ length (filterData eventData orgData userRole userId)
     = (length (filter (fun event => isPublic event) eventData)
        + length (filter (fun event => attending event) eventData))%nat
  /\ (forall event,
        isPublic event = true -> attending event = true ->
        filterData [event] orgData userRole userId = [event; event]).
Proof.
  intros Hsuper Hadmin attending. unfold EventCalendar.filterData.
  rewrite !bool_decide_eq_false_2 by done.
  rewrite !foldl_userStep. cbn [app]. split; [done |]. split.
  - subst attending. induction eventData as [| e l IH]; [done |].
    cbn [mbind list_bind]. rewrite !filter_cons, !length_app.
    cbn [mbind list_bind] in IH. rewrite IH.
    destruct (isPublic e), (Js.truthyBool (someId (attendees e) userId));
      cbn; repeat case_decide; try tauto; cbn; lia.
  - intros event Hpub Hatt. rewrite foldl_userStep. cbn.
    unfold attending in Hatt. by rewrite Hpub, Hatt.
Qed.

End EventFiltering.

Section Cards.
Import EventCalendar.

Lemma foldl_push {A} (data l : list A) : foldl push data l = (data ++ l)%list.
Proof.
  revert data. induction l as [| x l IH]; intros data; cbn.
  - by rewrite app_nil_r.
  - rewrite IH. unfold push. by rewrite <- app_assoc.
Qed.

(** X14.  The card a calendar renders for an event gets the attendee ids of
    the event, an empty list when the event has none; opened on these props
    the modals' [isRegistered] is therefore always a boolean, true exactly
    when the stored user id is among the attendees of the event. *)
Theorem cardProps_registered (newDate : string -> Js.Date)
    (refetchEvents : bool) (datas : InterfaceEventListCard)
    (userId : option string) :
  attendees (cardProps refetchEvents datas)
    = Some (default [] (attendees datas))
  /\ isRegistered (initialState newDate (cardProps refetchEvents datas) userId)
     = Some (Js.truthyBool (someId (attendees datas) userId)).
Proof.
  unfold cardProps. cbn. unfold isInitiallyRegistered, someId. cbn.
  destruct (attendees datas) as [l |]; cbn; [| done].
  rewrite foldl_push. cbn. split; [done |]. by destruct (existsb _ l).
Qed.

End Cards.

(** ** Calendar arithmetic *)

Section CalendarArithmetic.
Import JsDate.

Ltac split_ifs :=
  repeat match goal with
         | |- context [if ?b then _ else _] =>
             let E := fresh "E" in destruct b eqn:E
         end;
  rewrite ?Z.leb_le, ?Z.leb_gt, ?Z.ltb_lt, ?Z.ltb_ge in *.

Ltac calendar_lia := split_ifs; Z.div_mod_to_equations; lia.

Lemma yearOfEra_spec doe :
  0 <= doe < 146097 ->
  0 <= yearOfEra doe <= 399
  /\ yearStart (yearOfEra doe) <= doe
  /\ doe < (if yearOfEra doe =? 399 then 146097
            else yearStart (yearOfEra doe + 1)).
Proof.
  intros H. unfold yearOfEra, yearStart.
  destruct (Z.eqb_spec
              ((doe - doe / 1460 + doe / 36524 - doe / 146096) / 365) 399);
    Z.div_mod_to_equations; lia.
Qed.

Lemma monthOfYear_spec doy :
  0 <= doy <= 365 ->
  0 <= monthOfYear doy <= 11
  /\ monthStart (monthOfYear doy) <= doy
  /\ (monthOfYear doy < 11 -> doy < monthStart (monthOfYear doy + 1)).
Proof.
  intros H. unfold monthOfYear, monthStart. Z.div_mod_to_equations. lia.
Qed.

(** The pieces [civilFromDays] computes, with the bounds they obey. *)
Lemma civilFromDays_decompose z :
  exists era yoe doy mp,
    z + 719468 = era * 146097 + yearStart yoe + doy
    /\ 0 <= yoe <= 399
    /\ 0 <= doy
    /\ yearStart yoe + doy
       < (if yoe =? 399 then 146097 else yearStart (yoe + 1))
    /\ 0 <= mp <= 11
    /\ monthStart mp <= doy
    /\ (mp < 11 -> doy < monthStart (mp + 1))
    /\ civilFromDays z
       = Js.mkCalendarDate
           (yoe + era * 400 + (if mp <? 10 then 0 else 1))
           (if mp <? 10 then mp + 3 else mp - 9)
           (doy - monthStart mp + 1).
Proof.
  unfold civilFromDays. cbn zeta.
  remember ((z + 719468) / 146097) as era eqn:Eera.
  remember (z + 719468 - era * 146097) as doe eqn:Edoe.
  assert (0 <= doe < 146097) as Hdoe
    by (subst doe era; Z.div_mod_to_equations; lia).
  destruct (yearOfEra_spec doe Hdoe) as (Hyoe & Hstart & Hnext).
  remember (yearOfEra doe) as yoe eqn:Eyoe.
  assert (0 <= doe - yearStart yoe <= 365) as Hdoy.
  { destruct (Z.eqb_spec yoe 399) as [-> | _]; unfold yearStart in *;
      Z.div_mod_to_equations; lia. }
  destruct (monthOfYear_spec _ Hdoy) as (Hmp & Hmstart & Hmnext).
  remember (doe - yearStart yoe) as doy eqn:Edoy.
  remember (monthOfYear doy) as mp eqn:Emp.
  exists era, yoe, doy, mp.
  split; [lia |]. split; [lia |]. split; [lia |].
  split; [by replace (yearStart yoe + doy) with doe by lia |].
  split; [lia |]. split; [lia |]. split; [done |].
  f_equal. destruct (Z.ltb_spec mp 10);
    [destruct (Z.leb_spec (mp + 3) 2) | destruct (Z.leb_spec (mp - 9) 2)];
    lia.
Qed.

Lemma daysFromCivil_civilFromDays z :
  Js.daysFromCivil (civilFromDays z) = z.
Proof.
  destruct (civilFromDays_decompose z)
    as (era & yoe & doy & mp & Hz & Hyoe & Hdoy & _ & Hmp & _ & _ & ->).
  unfold Js.daysFromCivil, yearStart, monthStart in *.
  cbn [Js.year Js.month Js.day]. calendar_lia.
Qed.

Lemma civilFromDays_month z : 1 <= Js.month (civilFromDays z) <= 12.
Proof.
  destruct (civilFromDays_decompose z)
    as (era & yoe & doy & mp & _ & _ & _ & _ & Hmp & _ & _ & ->).
  cbn [Js.month]. calendar_lia.
Qed.

Lemma civilFromDays_day z : 1 <= Js.day (civilFromDays z) <= 31.
Proof.
  destruct (civilFromDays_decompose z)
    as (era & yoe & doy & mp & _ & Hyoe & Hdoy & Hnext & Hmp & Hs & Hn & ->).
  cbn [Js.day]. split; [lia |].
  destruct (decide (mp < 11)) as [Hlt | Hge].
  - specialize (Hn Hlt). unfold monthStart in *. Z.div_mod_to_equations. lia.
  - assert (mp = 11) as -> by lia.
    destruct (Z.eqb_spec yoe 399) as [-> | _]; unfold yearStart, monthStart in *;
      Z.div_mod_to_equations; lia.
Qed.

Lemma daysFromCivil_day y m d :
  Js.daysFromCivil (Js.mkCalendarDate y m d)
  = Js.daysFromCivil (Js.mkCalendarDate y m 1) + d - 1.
Proof. unfold Js.daysFromCivil. cbn [Js.year Js.month Js.day]. lia. Qed.

Lemma makeDay_date y m d : makeDay y m d = makeDay y m 1 + d - 1.
Proof. unfold makeDay. lia. Qed.

Lemma makeDay_month_index y m d : makeDay y m d = makeDay 0 (12 * y + m) d.
Proof.
  unfold makeDay.
  replace (0 + (12 * y + m) / 12) with (y + m / 12)
    by (Z.div_mod_to_equations; lia).
  replace ((12 * y + m) mod 12) with (m mod 12)
    by (Z.div_mod_to_equations; lia).
  done.
Qed.

Lemma daysInMonth_bounds y m : 28 <= daysInMonth y m <= 31.
Proof.
  unfold daysInMonth, makeDay, Js.daysFromCivil.
  cbn [Js.year Js.month Js.day]. calendar_lia.
Qed.

Lemma makeDay_month_succ y m : makeDay y m 1 < makeDay y (m + 1) 1.
Proof. pose proof (daysInMonth_bounds y m). unfold daysInMonth in *. lia. Qed.

(** Month starts increase with the month index. *)
Lemma makeDay_month_mono k n :
  0 <= n -> makeDay 0 k 1 <= makeDay 0 (k + n) 1 - 28 * n.
Proof.
  revert n. apply natlike_ind.
  - replace (k + 0) with k; lia.
  - intros n Hn IH. pose proof (daysInMonth_bounds 0 (k + n)) as Hstep.
    unfold daysInMonth in Hstep.
    replace (k + Z.succ n) with (k + n + 1) by lia. lia.
Qed.

Lemma makeDay_month_lt k k' : k < k' -> makeDay 0 k 1 < makeDay 0 k' 1.
Proof.
  intros Hlt. pose proof (makeDay_month_mono k (k' - k) ltac:(lia)) as Hm.
  replace (k + (k' - k)) with k' in Hm; lia.
Qed.

(** A day number lies in the month [civilFromDays] finds for it. *)
Lemma civilFromDays_in_month z :
  let c := civilFromDays z in
  makeDay (Js.year c) (Js.month c - 1) 1 <= z
  /\ z < makeDay (Js.year c) (Js.month c) 1.
Proof.
  destruct (civilFromDays_decompose z)
    as (era & yoe & doy & mp & Hz & Hyoe & Hdoy & Hnext & Hmp & Hs & Hn & ->).
  cbn zeta. cbn [Js.year Js.month Js.day].
  assert (mp = 0 \/ mp = 1 \/ mp = 2 \/ mp = 3 \/ mp = 4 \/ mp = 5 \/ mp = 6
          \/ mp = 7 \/ mp = 8 \/ mp = 9 \/ mp = 10 \/ mp = 11) as Hcases by lia.
  unfold makeDay, Js.daysFromCivil. cbn [Js.year Js.month Js.day].
  repeat destruct Hcases as [-> | Hcases]; try subst mp;
    cbn [Z.ltb Z.compare Pos.compare Pos.compare_cont];
    (destruct (Z.eqb_spec yoe 399) as [-> | Hne];
     unfold yearStart, monthStart in *; split; calendar_lia).
Qed.

(** The month whose days contain [z] is the one [civilFromDays] finds. *)
Lemma civilFromDays_unique z y m :
  0 <= m <= 11 ->
  makeDay y m 1 <= z < makeDay y (m + 1) 1 ->
  civilFromDays z = Js.mkCalendarDate y (m + 1) (z - makeDay y m 1 + 1).
Proof.
  intros Hm Hz.
  pose proof (civilFromDays_in_month z) as Hc. cbn zeta in Hc.
  pose proof (civilFromDays_month z) as Hmonth.
  pose proof (daysFromCivil_civilFromDays z) as Hround.
  destruct (civilFromDays z) as [y' m' d']. cbn [Js.year Js.month Js.day] in *.
  rewrite (makeDay_month_index y m), (makeDay_month_index y (m + 1)) in Hz.
  rewrite (makeDay_month_index y' (m' - 1)), (makeDay_month_index y' m') in Hc.
  assert (12 * y' + (m' - 1) = 12 * y + m) as Hk.
  { destruct (Z.lt_trichotomy (12 * y' + (m' - 1)) (12 * y + m))
      as [Hlt | [Heq | Hgt]]; [| done |].
    - assert (12 * y' + m' <= 12 * y + m) as Hle by lia.
      destruct (decide (12 * y' + m' = 12 * y + m)) as [He | Hne].
      + rewrite He in Hc. lia.
      + pose proof (makeDay_month_lt (12 * y' + m') (12 * y + m) ltac:(lia)).
        lia.
    - assert (12 * y + (m + 1) <= 12 * y' + (m' - 1)) as Hle by lia.
      destruct (decide (12 * y + (m + 1) = 12 * y' + (m' - 1))) as [He | Hne].
      + rewrite He in Hz. lia.
      + pose proof (makeDay_month_lt (12 * y + (m + 1)) (12 * y' + (m' - 1))
                      ltac:(lia)).
        lia. }
  assert (y' = y /\ m' = m + 1) as [-> ->] by lia.
  f_equal. rewrite daysFromCivil_day in Hround.
  unfold makeDay.
  replace (y + m / 12) with y by (Z.div_mod_to_equations; lia).
  replace (m mod 12 + 1) with (m + 1) by (Z.div_mod_to_equations; lia).
  lia.
Qed.

(** [new Date(y, m, d)] read back through the getters, for a day of the
    month. *)
Lemma civilFromDays_makeDay y m d :
  0 <= m <= 11 -> 1 <= d <= daysInMonth y m ->
  civilFromDays (makeDay y m d) = Js.mkCalendarDate y (m + 1) d.
Proof.
  intros Hm Hd. unfold daysInMonth in Hd.
  rewrite (civilFromDays_unique (makeDay y m d) y m Hm).
  - f_equal. rewrite (makeDay_date y m d). lia.
  - rewrite (makeDay_date y m d). lia.
Qed.

Lemma dayNumber_ofDayNumber z : dayNumber (ofDayNumber z) = z.
Proof. apply daysFromCivil_civilFromDays. Qed.

Lemma getDay_ofDayNumber z : Js.getDay (ofDayNumber z) = (z + 4) mod 7.
Proof. unfold Js.getDay. cbn. by rewrite daysFromCivil_civilFromDays. Qed.

(** Stepping the day field of a date read through its getters moves the day
    number by as much. *)
Lemma makeDay_getters z k :
  makeDay (getFullYear (ofDayNumber z)) (getMonth (ofDayNumber z))
    (getDate (ofDayNumber z) + k) = z + k.
Proof.
  unfold getFullYear, getMonth, getDate, ofDayNumber. cbn [Js.calendar].
  pose proof (civilFromDays_month z) as Hmonth.
  pose proof (daysFromCivil_civilFromDays z) as Hround.
  destruct (civilFromDays z) as [y m d]. cbn [Js.year Js.month Js.day] in *.
  rewrite daysFromCivil_day in Hround. unfold makeDay.
  replace (y + (m - 1) / 12) with y by (Z.div_mod_to_equations; lia).
  replace ((m - 1) mod 12 + 1) with m by (Z.div_mod_to_equations; lia).
  lia.
Qed.

(** Days on or after the first of January of year [y] have a year of at
    least [y]. *)
Lemma getFullYear_lower y z :
  makeDay y 0 1 <= z -> y <= getFullYear (ofDayNumber z).
Proof.
  intros Hz. unfold getFullYear, ofDayNumber. cbn [Js.calendar].
  pose proof (civilFromDays_in_month z) as [_ Hc].
  pose proof (civilFromDays_month z) as Hmonth.
  destruct (civilFromDays z) as [y' m' d']. cbn [Js.year Js.month Js.day] in *.
  destruct (decide (y <= y')) as [| Hlt]; [done |]. exfalso.
  rewrite (makeDay_month_index y' m') in Hc.
  rewrite (makeDay_month_index y 0) in Hz.
  destruct (decide (12 * y' + m' = 12 * y + 0)) as [He | Hne].
  - rewrite He in Hc. lia.
  - pose proof (makeDay_month_lt (12 * y' + m') (12 * y + 0) ltac:(lia)). lia.
Qed.

Lemma eraDays y :
  y / 400 * 146097 + yearStart (y - y / 400 * 400)
  = 365 * y + y / 4 - y / 100 + y / 400.
Proof. unfold yearStart. Z.div_mod_to_equations. lia. Qed.

Lemma daysFromCivil_march y :
  Js.daysFromCivil (Js.mkCalendarDate y 3 1)
  = 365 * y + y / 4 - y / 100 + y / 400 - 719468.
Proof.
  pose proof (eraDays y) as Hy.
  unfold Js.daysFromCivil, yearStart in *. cbn [Js.year Js.month Js.day].
  change (3 <=? 2) with false. cbv iota.
  change ((153 * (3 - 3) + 2) / 5) with 0. lia.
Qed.

Lemma daysFromCivil_february y :
  Js.daysFromCivil (Js.mkCalendarDate y 2 1)
  = 365 * (y - 1) + (y - 1) / 4 - (y - 1) / 100 + (y - 1) / 400 + 337
    - 719468.
Proof.
  pose proof (eraDays (y - 1)) as Hy.
  unfold Js.daysFromCivil, yearStart in *. cbn [Js.year Js.month Js.day].
  change (2 <=? 2) with true. cbv iota.
  change ((153 * (2 + 9) + 2) / 5) with 337. lia.
Qed.

Lemma makeDay_in_year y m d :
  0 <= m <= 11 ->
  makeDay y m d = Js.daysFromCivil (Js.mkCalendarDate y (m + 1) d).
Proof.
  intros Hm. unfold makeDay.
  rewrite Z.div_small, Z.mod_small, Z.add_0_r by lia.
  rewrite (daysFromCivil_day y (m + 1) d). lia.
Qed.

(** February has 29 days in leap years and 28 otherwise. *)
Lemma daysInMonth_february y :
  daysInMonth y 1
  = if ((y mod 4 =? 0) && negb (y mod 100 =? 0)) || (y mod 400 =? 0)
    then 29 else 28.
Proof.
  unfold daysInMonth. rewrite !makeDay_in_year by lia.
  change (1 + 1 + 1) with 3. change (1 + 1) with 2.
  rewrite daysFromCivil_march, daysFromCivil_february.
  destruct (Z.eqb_spec (y mod 4) 0), (Z.eqb_spec (y mod 100) 0),
    (Z.eqb_spec (y mod 400) 0); cbn [andb orb negb];
    Z.div_mod_to_equations; lia.
Qed.

(** The other months have their fixed lengths. *)
Lemma daysInMonth_fixed y m :
  0 <= m <= 11 -> m <> 1 ->
  daysInMonth y m
  = if (m =? 3) || (m =? 5) || (m =? 8) || (m =? 10) then 30 else 31.
Proof.
  intros Hm Hfeb.
  assert (m = 0 \/ m = 2 \/ m = 3 \/ m = 4 \/ m = 5 \/ m = 6
          \/ m = 7 \/ m = 8 \/ m = 9 \/ m = 10 \/ m = 11) as Hcases by lia.
  unfold daysInMonth.
  replace (makeDay y (m + 1) 1)
    with (if m =? 11 then makeDay (y + 1) 0 1 else makeDay y (m + 1) 1).
  2:{ destruct (Z.eqb_spec m 11) as [-> | _]; [| done].
      rewrite (makeDay_month_index (y + 1)), (makeDay_month_index y).
      f_equal. lia. }
  repeat destruct Hcases as [-> | Hcases]; try subst m;
    cbn [Z.eqb Pos.eqb orb];
    rewrite !makeDay_in_year by lia;
    unfold Js.daysFromCivil; cbn [Js.year Js.month Js.day];
    repeat match goal with
           | |- context [?a <=? 2] =>
               let b := eval vm_compute in (a <=? 2) in
               progress change (a <=? 2) with b
           end;
    cbv iota; Z.div_mod_to_equations; lia.
Qed.

End CalendarArithmetic.

(** ** The day grids of the calendars *)

Section Grids.
Import JsDate EventCalendar.

Lemma leb_ofDayNumber a b : leb (ofDayNumber a) (ofDayNumber b) = (a <=? b).
Proof.
  unfold leb. rewrite !dayNumber_ofDayNumber. cbn.
  destruct (Z.ltb_spec a b), (Z.eqb_spec a b), (Z.leb_spec a b); cbn; lia.
Qed.

Lemma newDate_ofDayNumber y m d :
  ~ 0 <= y <= 99 -> newDate y m d = ofDayNumber (makeDay y m d).
Proof.
  intros Hy. unfold newDate.
  destruct (Z.leb_spec 0 y), (Z.leb_spec y 99); cbn; (done || lia).
Qed.

Lemma newDate_step z k :
  year100 <= z ->
  newDate (getFullYear (ofDayNumber z)) (getMonth (ofDayNumber z))
    (getDate (ofDayNumber z) + k) = ofDayNumber (z + k).
Proof.
  intros Hz. pose proof (getFullYear_lower 100 z Hz).
  rewrite newDate_ofDayNumber by lia. by rewrite makeDay_getters.
Qed.

Lemma makeDay_after_year100 y m :
  100 < y -> 0 <= m <= 11 -> year100 + 300 <= makeDay y m 1.
Proof.
  intros Hy Hm. unfold year100.
  rewrite (makeDay_month_index y m), (makeDay_month_index 100 0).
  pose proof (makeDay_month_mono (12 * 100 + 0) (12 * y + m - 1200) ltac:(lia))
    as Hmono.
  replace (12 * 100 + 0 + (12 * y + m - 1200)) with (12 * y + m) in Hmono
    by lia.
  lia.
Qed.

(** The loop collects the days from [s] on, one per step. *)
Lemma collectDays_run (n fuel : nat) (s : Z) :
  (n <= fuel)%nat -> year100 <= s ->
  collectDays fuel (ofDayNumber s) (ofDayNumber (s + Z.of_nat n - 1))
  = Some (ofDayNumber <$> seqZ s (Z.of_nat n)).
Proof.
  revert fuel s. induction n as [| n IH]; intros fuel s Hfuel Hs.
  - destruct fuel; cbn [collectDays]; rewrite leb_ofDayNumber;
      destruct (Z.leb_spec s (s + Z.of_nat 0 - 1)); (lia || done).
  - destruct fuel as [| fuel]; [lia |]. cbn [collectDays].
    rewrite leb_ofDayNumber.
    destruct (Z.leb_spec s (s + Z.of_nat (S n) - 1)); [| lia].
    rewrite newDate_step by done.
    replace (s + Z.of_nat (S n) - 1) with (s + 1 + Z.of_nat n - 1) by lia.
    rewrite IH by lia. cbn.
    rewrite (seqZ_cons s (Z.of_nat (S n))) by lia. cbn. repeat f_equal; lia.
Qed.

Lemma getDay_range z : 0 <= (z + 4) mod 7 <= 6.
Proof. Z.div_mod_to_equations. lia. Qed.

(** The monthly grid as a run of consecutive day numbers: it starts on the
    Sunday on or before the first of the month and covers whole weeks up to
    the Saturday on or after the last day. *)
Lemma renderDays_run (fuel : nat) (year month : Z) :
  100 < year -> 0 <= month <= 11 -> (42 <= fuel)%nat ->
  let first := makeDay year month 1 in
  let last := makeDay year (month + 1) 1 - 1 in
  exists s weeks,
    renderDays fuel year month = Some (ofDayNumber <$> seqZ s (7 * weeks))
    /\ (s + 4) mod 7 = 0
    /\ first - 7 < s <= first
    /\ last <= s + 7 * weeks - 1 < last + 7
    /\ 4 <= weeks <= 6.
Proof.
  intros Hy Hm Hfuel first last.
  pose proof (makeDay_after_year100 year month Hy Hm) as Hfirst.
  pose proof (daysInMonth_bounds year month) as Hlen.
  unfold daysInMonth in Hlen. fold first in Hfirst, Hlen.
  pose proof (getDay_range first) as Hdow.
  pose proof (getDay_range last) as Hdow'.
  set (s := first - (first + 4) mod 7).
  set (e := last + (6 - (last + 4) mod 7)).
  assert ((e - s + 1) mod 7 = 0) as Hweeks
    by (unfold s, e; Z.div_mod_to_equations; lia).
  exists s, ((e - s + 1) / 7).
  assert (7 * ((e - s + 1) / 7) = e - s + 1) as Hn
    by (Z.div_mod_to_equations; lia).
  rewrite Hn. split; [| unfold s, e in *; Z.div_mod_to_equations; lia].
  unfold renderDays.
  rewrite (newDate_ofDayNumber year month 1) by lia.
  rewrite (newDate_ofDayNumber year (month + 1) 0) by lia.
  rewrite (makeDay_date year (month + 1) 0). fold first.
  replace (makeDay year (month + 1) 1 + 0 - 1) with last by (unfold last; lia).
  rewrite !getDay_ofDayNumber.
  replace (getDate (ofDayNumber first) - (first + 4) mod 7)
    with (getDate (ofDayNumber first) + - ((first + 4) mod 7)) by lia.
  rewrite !newDate_step by (unfold last; lia).
  fold e. replace (first + - ((first + 4) mod 7)) with s by (unfold s; lia).
  replace e with (s + Z.of_nat (Z.to_nat (e - s + 1)) - 1) at 1
    by (unfold s, e; lia).
  rewrite collectDays_run by (unfold s, e in *; lia).
  do 3 f_equal. unfold s, e. lia.
Qed.

(** The month of a day, from the month index whose days contain it. *)
Lemma civilFromDays_month_index z k :
  makeDay 0 k 1 <= z < makeDay 0 (k + 1) 1 ->
  Js.month (civilFromDays z) = k mod 12 + 1.
Proof.
  intros Hz.
  rewrite (civilFromDays_unique z (k / 12) (k mod 12)).
  - done.
  - Z.div_mod_to_equations. lia.
  - rewrite (makeDay_month_index (k / 12) (k mod 12)),
      (makeDay_month_index (k / 12) (k mod 12 + 1)).
    replace (12 * (k / 12) + k mod 12) with k
      by (Z.div_mod_to_equations; lia).
    replace (12 * (k / 12) + (k mod 12 + 1)) with (k + 1)
      by (Z.div_mod_to_equations; lia).
    done.
Qed.

(** Which month a day near a month belongs to: within a week of the month,
    [getMonth] returns the month exactly on the days of the month. *)
Lemma getMonth_near_month year month z :
  0 <= month <= 11 ->
  makeDay year month 1 - 7 < z < makeDay year (month + 1) 1 + 6 ->
  getMonth (ofDayNumber z) = month
  <-> makeDay year month 1 <= z < makeDay year (month + 1) 1.
Proof.
  intros Hm Hz. unfold getMonth, ofDayNumber. cbn [Js.calendar].
  rewrite (makeDay_month_index year month),
    (makeDay_month_index year (month + 1)) in *.
  replace (12 * year + (month + 1)) with (12 * year + month + 1) in * by lia.
  remember (12 * year + month) as k eqn:Ek.
  pose proof (daysInMonth_bounds 0 (k - 1)) as Hprev.
  pose proof (daysInMonth_bounds 0 (k + 1)) as Hnext.
  unfold daysInMonth in Hprev, Hnext.
  replace (k - 1 + 1) with k in Hprev by lia.
  destruct (decide (z < makeDay 0 k 1)) as [Hbefore | Hfrom].
  - rewrite (civilFromDays_month_index z (k - 1))
      by (replace (k - 1 + 1) with k by lia; lia).
    split; [Z.div_mod_to_equations; lia | lia].
  - destruct (decide (z < makeDay 0 (k + 1) 1)) as [Hin | Hafter].
    + rewrite (civilFromDays_month_index z k) by lia.
      split; [lia | Z.div_mod_to_equations; lia].
    + rewrite (civilFromDays_month_index z (k + 1)) by lia.
      split; [Z.div_mod_to_equations; lia | lia].
Qed.

(** What a grid of whole weeks starting at day number [s] offers, whatever
    weekday [s] falls on. *)
Lemma grid_facts (year month s weeks : Z) (days : list Js.Date) :
  100 < year -> 0 <= month <= 11 ->
  days = ofDayNumber <$> seqZ s (7 * weeks) ->
  makeDay year month 1 - 7 < s <= makeDay year month 1 ->
  makeDay year (month + 1) 1 - 1 <= s + 7 * weeks - 1
    < makeDay year (month + 1) 1 - 1 + 7 ->
  0 <= weeks ->
  Z.of_nat (length days) = 7 * weeks
  /\ (forall (i : nat) date,
        days !! i = Some date ->
        Js.getDay date = (s + 4 + Z.of_nat i) mod 7
        /\ dayNumber date = s + Z.of_nat i /\ Js.msOfDay date = 0)
  /\ (forall d,
        1 <= d <= daysInMonth year month -> newDate year month d ∈ days)
  /\ (forall date,
        date ∈ days ->
        getMonth date = month
        <-> exists d, 1 <= d <= daysInMonth year month
                      /\ date = newDate year month d).
Proof.
  intros Hy Hm -> Hs He Hweeks.
  split; [rewrite length_fmap, length_seqZ; lia |].
  split; [| split].
  - intros i date Hi.
    apply list_lookup_fmap_Some in Hi as (z & -> & [-> Hlt]%lookup_seqZ).
    rewrite getDay_ofDayNumber, dayNumber_ofDayNumber. cbn.
    repeat split. f_equal. lia.
  - intros d Hd. unfold daysInMonth in Hd.
    rewrite newDate_ofDayNumber by lia.
    apply list_elem_of_fmap. exists (makeDay year month d). split; [done |].
    apply elem_of_seqZ. rewrite (makeDay_date year month d). lia.
  - intros date (z & -> & Hz%elem_of_seqZ)%list_elem_of_fmap.
    rewrite (getMonth_near_month year month z Hm) by lia. split.
    + intros Hin. exists (z - makeDay year month 1 + 1).
      unfold daysInMonth. split; [lia |].
      rewrite newDate_ofDayNumber by lia.
      rewrite (makeDay_date year month). f_equal. lia.
    + intros (d & Hd & Heq). unfold daysInMonth in Hd.
      rewrite newDate_ofDayNumber in Heq by lia.
      apply (f_equal dayNumber) in Heq.
      rewrite !dayNumber_ofDayNumber in Heq. subst z.
      rewrite (makeDay_date year month d). lia.
Qed.

Lemma setDate_step z k :
  setDate (ofDayNumber z) (getDate (ofDayNumber z) + k) = ofDayNumber (z + k).
Proof. unfold setDate. by rewrite makeDay_getters. Qed.

(** The yearly grid of a month as a run of consecutive day numbers: it
    starts on the Monday on or before the first of the month and covers whole
    weeks up to the Sunday on or after the last day. *)
Lemma monthDays_run (fuel : nat) (year month : Z) :
  100 < year -> 0 <= month <= 11 -> (42 <= fuel)%nat ->
  let first := makeDay year month 1 in
  let last := makeDay year (month + 1) 1 - 1 in
  exists s weeks,
    YearlyEventCalender.monthDays fuel year month
    = Some (ofDayNumber <$> seqZ s (7 * weeks))
    /\ (s + 4) mod 7 = 1
    /\ first - 7 < s <= first
    /\ last <= s + 7 * weeks - 1 < last + 7
    /\ 4 <= weeks <= 6.
Proof.
  intros Hy Hm Hfuel first last.
  pose proof (makeDay_after_year100 year month Hy Hm) as Hfirst.
  pose proof (daysInMonth_bounds year month) as Hlen.
  unfold daysInMonth in Hlen. fold first in Hfirst, Hlen.
  pose proof (getDay_range first) as Hdow.
  pose proof (getDay_range last) as Hdow'.
  remember (first - (first + 4) mod 7
            + (if (first + 4) mod 7 =? 0 then -6 else 1)) as s eqn:Es.
  remember (last + (7 - (last + 4) mod 7)
            - (if (last + 4) mod 7 =? 0 then 7 else 0)) as e eqn:Ee.
  assert ((s + 4) mod 7 = 1 /\ first - 7 < s <= first) as [Hmonday Hs].
  { subst s. destruct (Z.eqb_spec ((first + 4) mod 7) 0);
      Z.div_mod_to_equations; lia. }
  assert ((e + 4) mod 7 = 0 /\ last <= e < last + 7) as [Hsunday He].
  { subst e. destruct (Z.eqb_spec ((last + 4) mod 7) 0);
      Z.div_mod_to_equations; lia. }
  assert ((e - s + 1) mod 7 = 0) as Hweeks
    by (Z.div_mod_to_equations; lia).
  exists s, ((e - s + 1) / 7).
  assert (7 * ((e - s + 1) / 7) = e - s + 1) as Hn
    by (Z.div_mod_to_equations; lia).
  rewrite Hn. split; [| unfold last in *; Z.div_mod_to_equations; lia].
  unfold YearlyEventCalender.monthDays.
  rewrite (newDate_ofDayNumber year month 1) by lia.
  rewrite (newDate_ofDayNumber year (month + 1) 0) by lia.
  rewrite (makeDay_date year (month + 1) 0). fold first.
  replace (makeDay year (month + 1) 1 + 0 - 1) with last by (unfold last; lia).
  rewrite !getDay_ofDayNumber.
  replace (getDate (ofDayNumber first) - (first + 4) mod 7
           + (if (first + 4) mod 7 =? 0 then -6 else 1))
    with (getDate (ofDayNumber first) + (s - first)) by lia.
  replace (getDate (ofDayNumber last) + (7 - (last + 4) mod 7)
           - (if (last + 4) mod 7 =? 0 then 7 else 0))
    with (getDate (ofDayNumber last) + (e - last)) by lia.
  rewrite !setDate_step.
  replace (first + (s - first)) with s by lia.
  replace (last + (e - last))
    with (s + Z.of_nat (Z.to_nat (e - s + 1)) - 1) by lia.
  rewrite collectDays_run by lia.
  do 3 f_equal. lia.
Qed.

End Grids.

(** ** The views of the calendars *)

Section CalendarViews.
Import JsDate EventCalendar.

(** X18.  The monthly calendar lays out four to six whole weeks: the cell in
    column [i mod 7] is a day of weekday [i mod 7] (Sunday first), cells hold
    consecutive days, every day of the month has its cell, and a cell's
    [getMonth] is the shown month exactly when it is a day of that month. *)
Theorem renderDays_whole_weeks (fuel : nat) (currentYear currentMonth : Z) :
  100 < currentYear -> 0 <= currentMonth <= 11 -> (42 <= fuel)%nat ->
  exists days weeks,
    renderDays fuel currentYear currentMonth = Some days
    /\ 4 <= weeks <= 6
    /\ Z.of_nat (length days) = 7 * weeks
    /\ (forall (i : nat) date,
          days !! i = Some date -> Js.getDay date = Z.of_nat i mod 7)
    /\ (forall (i : nat) date next,
          days !! i = Some date -> days !! S i = Some next ->
          dayNumber next = dayNumber date + 1)
    /\ (forall d,
          1 <= d <= daysInMonth currentYear currentMonth ->
          newDate currentYear currentMonth d ∈ days)
    /\ (forall date,
          date ∈ days ->
          getMonth date = currentMonth
          <-> exists d, 1 <= d <= daysInMonth currentYear currentMonth
                        /\ date = newDate currentYear currentMonth d).
Proof.
  intros Hy Hm Hfuel.
  destruct (renderDays_run fuel currentYear currentMonth Hy Hm Hfuel)
    as (s & weeks & Hrun & Hsunday & Hs & He & Hweeks).
  exists (ofDayNumber <$> seqZ s (7 * weeks)), weeks.
  destruct (grid_facts currentYear currentMonth s weeks _ Hy Hm eq_refl Hs He
              ltac:(lia)) as (Hlen & Hcells & Hall & Hmonth).
  repeat split; try done; try lia.
  - intros i date Hi. destruct (Hcells i date Hi) as (-> & _).
    Z.div_mod_to_equations. lia.
  - intros i date next Hi Hnext.
    destruct (Hcells i date Hi) as (_ & -> & _).
    destruct (Hcells (S i) next Hnext) as (_ & -> & _). lia.
  - by apply Hmonth.
  - by apply Hmonth.
Qed.

(** X19.  The yearly calendar lays out, for each of the twelve months, four to
    six whole weeks with Monday first: the cell in column [i mod 7] is a day
    of weekday [(i + 1) mod 7], cells hold consecutive days, every day of the
    month has its cell, and a cell's [getMonth] is the month exactly when it
    is a day of that month. *)
Theorem renderMonthDays_whole_weeks (fuel : nat) (currentYear : Z)
    (monthInx : nat) :
  100 < currentYear -> (monthInx < 12)%nat -> (42 <= fuel)%nat ->
  let month := Z.of_nat monthInx in
  exists days weeks,
    YearlyEventCalender.renderMonthDays fuel currentYear !! monthInx
    = Some (Some days)
    /\ 4 <= weeks <= 6
    /\ Z.of_nat (length days) = 7 * weeks
    /\ (forall (i : nat) date,
          days !! i = Some date -> Js.getDay date = (Z.of_nat i + 1) mod 7)
    /\ (forall (i : nat) date next,
          days !! i = Some date -> days !! S i = Some next ->
          dayNumber next = dayNumber date + 1)
    /\ (forall d,
          1 <= d <= daysInMonth currentYear month ->
          newDate currentYear month d ∈ days)
    /\ (forall date,
          date ∈ days ->
          getMonth date = month
          <-> exists d, 1 <= d <= daysInMonth currentYear month
                        /\ date = newDate currentYear month d).
Proof.
  intros Hy Hinx Hfuel month.
  assert (0 <= month <= 11) as Hm by (unfold month; lia).
  destruct (monthDays_run fuel currentYear month Hy Hm Hfuel)
    as (s & weeks & Hrun & Hmonday & Hs & He & Hweeks).
  exists (ofDayNumber <$> seqZ s (7 * weeks)), weeks.
  destruct (grid_facts currentYear month s weeks _ Hy Hm eq_refl Hs He
              ltac:(lia)) as (Hlen & Hcells & Hall & Hmonth).
  split.
  { unfold YearlyEventCalender.renderMonthDays.
    rewrite list_lookup_fmap.
    assert (seqZ 0 12 !! monthInx = Some month) as ->
      by (apply lookup_seqZ; unfold month; lia).
    cbn. by rewrite Hrun. }
  repeat split; try done; try lia.
  - intros i date Hi. destruct (Hcells i date Hi) as (-> & _).
    Z.div_mod_to_equations. lia.
  - intros i date next Hi Hnext.
    destruct (Hcells i date Hi) as (_ & -> & _).
    destruct (Hcells (S i) next Hnext) as (_ & -> & _). lia.
  - by apply Hmonth.
  - by apply Hmonth.
Qed.

(** X15.  Month navigation keeps the month between 0 and 11, moves the month
    index by one, leaves the day of the month alone, and its two directions
    undo each other. *)
Theorem month_navigation (v : View) :
  0 <= currentMonth v <= 11 ->
  let index v := 12 * currentYear v + currentMonth v in
  (0 <= currentMonth (handleNextMonth v) <= 11
   /\ index (handleNextMonth v) = index v + 1
   /\ currentDate (handleNextMonth v) = currentDate v)
  /\ (0 <= currentMonth (handlePrevMonth v) <= 11
     /\ index (handlePrevMonth v) = index v - 1
     /\ currentDate (handlePrevMonth v) = currentDate v)
  /\ handlePrevMonth (handleNextMonth v) = v
  /\ handleNextMonth (handlePrevMonth v) = v.
Proof.
  intros Hm. destruct v as [d m y]. cbn in *.
  unfold handleNextMonth, handlePrevMonth. cbn.
  destruct (Z.eqb_spec m 11) as [H11 | H11];
    destruct (Z.eqb_spec m 0) as [H0 | H0]; cbn; try lia;
    repeat match goal with
           | |- context [?a =? ?b] => destruct (Z.eqb_spec a b)
           end; cbn; repeat split; try lia; f_equal; lia.
Qed.

(** X16.  From a day of the calendar, [handlePrevDate] moves to the day before:
    the view still shows a day of the calendar and its day number is one
    less. *)
Theorem handlePrevDate_previous_day (v : View) :
  ~ 0 <= currentYear v <= 99 -> validView v ->
  let v' := handlePrevDate v in
  validView v'
  /\ makeDay (currentYear v') (currentMonth v') (currentDate v')
     = makeDay (currentYear v) (currentMonth v) (currentDate v) - 1.
Proof.
  intros Hy [Hm Hd]. destruct v as [d m y]. cbn in *.
  unfold handlePrevDate, validView.
  cbn [currentDate currentMonth currentYear].
  destruct (Z.ltb_spec 1 d) as [Hgt | Hle].
  - cbn [currentDate currentMonth currentYear].
    rewrite (makeDay_date y m (d - 1)), (makeDay_date y m d).
    repeat split; lia.
  - assert (d = 1) as -> by lia.
    destruct (Z.ltb_spec 0 m) as [Hpos | Hzero].
    + cbn [currentDate currentMonth currentYear].
      rewrite newDate_ofDayNumber by lia.
      unfold getDate, ofDayNumber. cbn [Js.calendar].
      pose proof (daysInMonth_bounds y (m - 1)) as Hprev.
      unfold daysInMonth in *. replace (m - 1 + 1) with m in * by lia.
      rewrite (civilFromDays_unique (makeDay y m 0) y (m - 1))
        by (replace (m - 1 + 1) with m by lia;
            rewrite ?(makeDay_date y m 0); lia).
      cbn [Js.day]. rewrite (makeDay_date y m 0).
      rewrite (makeDay_date y (m - 1) (_ + 1)).
      repeat split; lia.
    + assert (m = 0) as -> by lia.
      cbn [currentDate currentMonth currentYear].
      pose proof (daysInMonth_fixed (y - 1) 11 ltac:(lia) ltac:(lia)) as Hdec.
      cbn in Hdec. rewrite Hdec. unfold daysInMonth in Hdec.
      rewrite (makeDay_date (y - 1) 11 31).
      rewrite (makeDay_month_index (y - 1) (11 + 1)) in Hdec.
      rewrite (makeDay_month_index y 0 1).
      replace (12 * y + 0) with (12 * (y - 1) + (11 + 1)) by lia.
      repeat split; lia.
Qed.

(** X17.  [handleNextDate] measures the date against the length of the month
    two before the shown one; while the month is between 0 and 11 it never
    advances the year, and from the 31st of December it sets the month to
    12. *)
Theorem handleNextDate_behaviour (v : View) :
  ~ 0 <= currentYear v <= 99 -> 0 <= currentMonth v <= 11 ->
  handleNextDate v
  = (if currentDate v
        <? daysInMonth (currentYear v) (currentMonth v - 2)
     then mkView (currentDate v + 1) (currentMonth v) (currentYear v)
     else mkView 1 (currentMonth v + 1) (currentYear v))
  /\ currentYear (handleNextDate v) = currentYear v
  /\ (currentMonth v = 11 -> 31 <= currentDate v ->
      currentMonth (handleNextDate v) = 12).
Proof.
  intros Hy Hm. destruct v as [d m y]. cbn in *.
  assert (getDate (newDate y (m - 1) 0) = daysInMonth y (m - 2)) as Hlast.
  { rewrite newDate_ofDayNumber by lia.
    unfold getDate, ofDayNumber, daysInMonth. cbn [Js.calendar].
    replace (m - 2 + 1) with (m - 1) by lia.
    pose proof (daysInMonth_bounds y (m - 2)) as Hprev.
    unfold daysInMonth in Hprev. replace (m - 2 + 1) with (m - 1) in Hprev by lia.
    rewrite !(makeDay_month_index y (m - 1)), !(makeDay_month_index y (m - 2))
      in *.
    remember (12 * y + (m - 2)) as k eqn:Ek.
    replace (12 * y + (m - 1)) with (k + 1) in * by lia.
    rewrite (makeDay_date 0 (k + 1) 0).
    rewrite (civilFromDays_unique _ (k / 12) (k mod 12)).
    - cbn [Js.day]. rewrite (makeDay_month_index (k / 12) (k mod 12)).
      replace (12 * (k / 12) + k mod 12) with k
        by (Z.div_mod_to_equations; lia).
      lia.
    - Z.div_mod_to_equations. lia.
    - rewrite (makeDay_month_index (k / 12) (k mod 12)),
        (makeDay_month_index (k / 12) (k mod 12 + 1)).
      replace (12 * (k / 12) + k mod 12) with k
        by (Z.div_mod_to_equations; lia).
      replace (12 * (k / 12) + (k mod 12 + 1)) with (k + 1)
        by (Z.div_mod_to_equations; lia).
      lia. }
  unfold handleNextDate. cbn [currentDate currentMonth currentYear].
  rewrite Hlast.
  destruct (Z.ltb_spec m 12) as [_ | ?]; [| lia].
  split; [done |]. split.
  - by destruct (d <? daysInMonth y (m - 2)); cbn.
  - intros -> Hd.
    pose proof (daysInMonth_fixed y 9 ltac:(lia) ltac:(lia)) as Hoct.
    cbn in Hoct. replace (11 - 2) with 9 by lia. rewrite Hoct.
    destruct (Z.ltb_spec d 31); [lia | done].
Qed.

End CalendarViews.

(** ** The theorems on concrete inputs *)

Lemma rescheduled_reachable :
  reachable Sample.haveInstanceDatesChanged Sample.hasRecurrenceRuleChanged
    Sample.parseDate Sample.translate Sample.event Sample.userId
    CalendarSample.rescheduled.
Proof.
  unfold CalendarSample.rescheduled, Sample.sampleStep, Sample.opened.
  repeat (apply reachable_step; [| exact I]). apply reachable_mount.
Qed.

Lemma reachable_scope_consistent_witness :
  recurringEventUpdateType CalendarSample.rescheduled
    ∈ recurringEventUpdateOptions CalendarSample.rescheduled.
Proof.
  apply (reachable_scope_consistent Sample.haveInstanceDatesChanged
           Sample.hasRecurrenceRuleChanged Sample.parseDate Sample.translate
           Sample.event Sample.userId CalendarSample.rescheduled
           rescheduled_reachable).
Defined.

Lemma reachable_flags_fresh_witness :
  instanceDatesChanged CalendarSample.rescheduled
  = Sample.haveInstanceDatesChanged "2024-01-01" "2024-01-01"
      (Js.format_YYYY_MM_DD (eventStartDate CalendarSample.rescheduled))
      (Js.format_YYYY_MM_DD (eventEndDate CalendarSample.rescheduled))
  /\ changeFlags
       (step Sample.haveInstanceDatesChanged Sample.hasRecurrenceRuleChanged
          Sample.parseDate Sample.translate Sample.refetched
          CalendarSample.rescheduled (SetPublicChecked false)).1
     = changeFlags CalendarSample.rescheduled.
Proof.
  destruct (reachable_flags_fresh Sample.haveInstanceDatesChanged
              Sample.hasRecurrenceRuleChanged Sample.parseDate
              Sample.translate Sample.event Sample.userId
              CalendarSample.rescheduled rescheduled_reachable)
    as [[Hdates _] Hkept].
  split; [exact Hdates | apply Hkept; reflexivity].
Defined.

(** After a refetch has moved the event to the 8th of January, an action
    that touches neither date nor the rule leaves the flag computed from the
    old props: the form still holds the 1st, which the detector would now
    report as changed, and [instanceDatesChanged] is still false. *)
Example flags_stale_after_refetch :
  let st :=
    (step Sample.haveInstanceDatesChanged Sample.hasRecurrenceRuleChanged
       Sample.parseDate Sample.translate Sample.refetched Sample.opened
       (SetPublicChecked false)).1 in
  instanceDatesChanged st = false
  /\ Sample.haveInstanceDatesChanged
       (startDate Sample.refetched) (endDate Sample.refetched)
       (Js.format_YYYY_MM_DD (eventStartDate st))
       (Js.format_YYYY_MM_DD (eventEndDate st))
     = true.
Proof. vm_compute. by split. Qed.

(** A visitor clicks "register" twice before the first response: both
    clicks send the request; after the responses a third click sends
    nothing. *)
Example two_clicks_two_requests :
  (sessionRun Sample.haveInstanceDatesChanged Sample.hasRecurrenceRuleChanged
     Sample.parseDate Sample.translate Sample.event
     (Sample.openedByVisitor, 0%nat)
     [RegisterClicked; RegisterClicked; RegisterSettled Data;
      RegisterSettled Data; RegisterClicked]).2
  = [RegisterEvent "event1"; RegisterEvent "event1";
     ToastSuccess "Successfully registered for Weekly sync"; HideViewModal;
     ToastSuccess "Successfully registered for Weekly sync"; HideViewModal].
Proof. vm_compute. reflexivity. Qed.

Lemma handlers_without_data_witness :
  updateEventHandler Sample.translate Sample.event Sample.opened Rejected
  = (Sample.opened,
     [UpdateEvent (updateVariables Sample.event Sample.opened); ErrorHandler]).
Proof.
  apply (handlers_without_data Sample.translate Sample.event Sample.opened
           Rejected).
  discriminate.
Defined.

Lemma filterData_admin_witness :
  EventCalendar.filterData "SUPERADMIN" "ADMIN"
    CalendarSample.events (Some CalendarSample.organization) (Some "ADMIN")
    (Some "user1")
  = CalendarSample.events.
Proof.
  destruct (filterData_admin "SUPERADMIN" "ADMIN" CalendarSample.events
              (Some CalendarSample.organization) (Some "user1"))
    as [Hadmin _]; [discriminate |].
  exact Hadmin.
Defined.

Lemma filterData_user_membership_witness :
  CalendarSample.privateEvent
    ∉ EventCalendar.filterData "SUPERADMIN" "ADMIN" CalendarSample.events
        None (Some "USER") (Some "user1").
Proof.
  intros Hin.
  apply (filterData_user_membership "SUPERADMIN" "ADMIN"
           CalendarSample.events None (Some "USER") (Some "user1")
           CalendarSample.privateEvent) in Hin as [_ [Hpublic | Hattends]];
    [discriminate | by destruct Hattends as (? & ? & ? & _) | discriminate ..].
Defined.

Lemma filterData_user_listing_witness :
  EventCalendar.filterData "SUPERADMIN" "ADMIN" [Sample.event] None
    (Some "USER") (Some "user1")
  = [Sample.event; Sample.event].
Proof.
  destruct (filterData_user_listing "SUPERADMIN" "ADMIN" [Sample.event] None
              (Some "USER") (Some "user1"))
    as (_ & _ & Htwice); [discriminate .. |].
  apply Htwice; reflexivity.
Defined.

Lemma month_navigation_witness :
  EventCalendar.handleNextMonth (EventCalendar.mkView 31 11 2024)
  = EventCalendar.mkView 31 0 2025
  /\ EventCalendar.handlePrevMonth
       (EventCalendar.handleNextMonth (EventCalendar.mkView 31 11 2024))
     = EventCalendar.mkView 31 11 2024.
Proof.
  destruct (month_navigation (EventCalendar.mkView 31 11 2024))
    as (_ & _ & Hback & _); [cbn; lia |].
  split; [reflexivity | exact Hback].
Defined.

Lemma handlePrevDate_previous_day_witness :
  EventCalendar.handlePrevDate (EventCalendar.mkView 1 2 2024)
  = EventCalendar.mkView 29 1 2024
  /\ EventCalendar.validView
       (EventCalendar.handlePrevDate (EventCalendar.mkView 1 2 2024)).
Proof.
  destruct (handlePrevDate_previous_day (EventCalendar.mkView 1 2 2024))
    as [Hvalid _].
  - cbn. lia.
  - unfold EventCalendar.validView. vm_compute. repeat split; discriminate.
  - split; [reflexivity | exact Hvalid].
Defined.

Lemma handleNextDate_behaviour_witness :
  EventCalendar.handleNextDate (EventCalendar.mkView 31 11 2024)
  = EventCalendar.mkView 1 12 2024
  /\ EventCalendar.handleNextDate (EventCalendar.mkView 30 0 2024)
     = EventCalendar.mkView 1 1 2024.
Proof.
  destruct (handleNextDate_behaviour (EventCalendar.mkView 31 11 2024))
    as (Hnext & _ & _); [cbn; lia .. |].
  split; [rewrite Hnext |]; reflexivity.
Defined.

Lemma renderDays_whole_weeks_witness :
  exists days weeks,
    EventCalendar.renderDays 42 2024 1 = Some days
    /\ 4 <= weeks <= 6
    /\ Z.of_nat (length days) = 7 * weeks.
Proof.
  destruct (renderDays_whole_weeks 42 2024 1)
    as (days & weeks & Hdays & Hweeks & Hlen & _); [lia .. |].
  exists days, weeks. exact (conj Hdays (conj Hweeks Hlen)).
Defined.

Lemma renderMonthDays_whole_weeks_witness :
  exists days weeks,
    YearlyEventCalender.renderMonthDays 42 2024 !! 8%nat = Some (Some days)
    /\ 4 <= weeks <= 6
    /\ Z.of_nat (length days) = 7 * weeks.
Proof.
  destruct (renderMonthDays_whole_weeks 42 2024 8)
    as (days & weeks & Hdays & Hweeks & Hlen & _); [lia .. |].
  exists days, weeks. exact (conj Hdays (conj Hweeks Hlen)).
Defined.

(** February 2024 in the monthly calendar: five weeks from Sunday the 28th
    of January to Saturday the 2nd of March. *)
Example renderDays_february_2024 :
  fmap (M := list) JsDate.getDate <$> EventCalendar.renderDays 42 2024 1
  = Some [28; 29; 30; 31; 1; 2; 3; 4; 5; 6; 7; 8; 9; 10; 11; 12; 13; 14; 15;
          16; 17; 18; 19; 20; 21; 22; 23; 24; 25; 26; 27; 28; 29; 1; 2].
Proof. vm_compute. reflexivity. Qed.
